(** * QuestLog (src/app.py): shallow embedding of the gamification core,
      the boss arena, and the save/load path.

    Python values are modelled by [pyval]. Booleans are Python ints in
    arithmetic. [NpInt64] is a numpy.int64 scalar. pandas produces one for
    [df['Status'].sum()] on a boolean column. Mixed int / numpy arithmetic
    follows NumPy 2 (NEP 50): a Python int operand is converted to int64, with
    OverflowError when it is out of range, and int64 results wrap around.
    Float results of true division are modelled by their exact rational value. *)

From Stdlib Require Import ZArith List String Ascii Bool QArith Lia.
Import ListNotations.
Open Scope string_scope.
Open Scope Z_scope.
Set Warnings "-register-all".

(** ** Configuration (class GameConfig) *)

Definition XP_PER_TASK : Z := 50.
Definition BOSS_DMG_PER_TASK : Z := 10.
Definition LEVEL_BASE_XP : Z := 500.
Definition BOSS_BONUS_XP : Z := 500.

(** ** datetime.date and datetime.time *)

Record date := mkDate { year : Z; month : Z; day : Z }.
Record time := mkTime { hour : Z; minute : Z; second : Z; microsecond : Z }.

Definition is_leap (y : Z) : bool :=
  (y mod 4 =? 0) && (negb (y mod 100 =? 0) || (y mod 400 =? 0)).

Definition DAYS_BEFORE_MONTH : list Z :=
  [-1; 0; 31; 59; 90; 120; 151; 181; 212; 243; 273; 304; 334].

Definition days_before_year (y : Z) : Z :=
  let y := y - 1 in y * 365 + y / 4 - y / 100 + y / 400.

Definition days_before_month (y m : Z) : Z :=
  nth (Z.to_nat m) DAYS_BEFORE_MONTH 0 + (if (m >? 2) && is_leap y then 1 else 0).

(** [date.toordinal] *)
Definition toordinal (d : date) : Z :=
  days_before_year (year d) + days_before_month (year d) (month d) + day d.

(** [(a - b).days] for two dates *)
Definition days_between (a b : date) : Z := toordinal a - toordinal b.

Definition date_eqb (a b : date) : bool :=
  (year a =? year b) && (month a =? month b) && (day a =? day b).

(** [a < b] on dates compares the tuples (year, month, day). *)
Definition date_ltb (a b : date) : bool :=
  (year a <? year b)
  || ((year a =? year b) && ((month a <? month b)
                             || ((month a =? month b) && (day a <? day b)))).

Definition time_eqb (a b : time) : bool :=
  (hour a =? hour b) && (minute a =? minute b) && (second a =? second b)
  && (microsecond a =? microsecond b).

(** ** Python values and exceptions *)

Inductive pyval : Type :=
| PNone
| PBool (b : bool)
| PInt (z : Z)
| NpInt64 (z : Z)
| PStr (s : string)
| PDate (d : date)
| PTime (t : time)
| PList (l : list pyval)
| PDict (kv : list (string * pyval)).

(** Python exceptions, and [Unmodelled]: not an exception of the program but
    the point where the run leaves what this embedding follows (the input is
    one on which Python versions differ, or the program goes on with a value
    the model's types do not hold). No handler catches it. *)
Inductive exn : Type :=
| KeyError | TypeError | ValueError | AttributeError
| OverflowError | ZeroDivisionError | StreamlitAPIException
| Unmodelled.

Inductive result (A : Type) : Type :=
| Ok (a : A)
| Exc (e : exn).
Arguments Ok {A} a.
Arguments Exc {A} e.

Definition rbind {A B} (c : result A) (k : A -> result B) : result B :=
  match c with Ok a => k a | Exc e => Exc e end.

Notation "x <- c ;; k" := (rbind c (fun x => k))
  (at level 61, c at next level, right associativity).

(** Python floats: the exact value of a finite result, or inf / nan. *)
Inductive pyfloat : Type :=
| FQ (q : Q)
| FInf (positive : bool)
| FNaN.

(** ** int64 *)

Definition two63 : Z := 2 ^ 63.
Definition wrap64 (z : Z) : Z := (z + two63) mod (2 * two63) - two63.
Definition in_int64 (z : Z) : bool := (- two63 <=? z) && (z <? two63).

(** Integer view of a number: (is numpy, value). *)
Definition num_view (v : pyval) : option (bool * Z) :=
  match v with
  | PBool b => Some (false, if b then 1 else 0)
  | PInt z => Some (false, z)
  | NpInt64 z => Some (true, z)
  | _ => None
  end.

(** Binary integer arithmetic with Python / NumPy 2 promotion. *)
Definition int_arith (f : Z -> Z -> Z) (a b : pyval) : result pyval :=
  match num_view a, num_view b with
  | Some (false, x), Some (false, y) => Ok (PInt (f x y))
  | Some (npa, x), Some (npb, y) =>
      if (npa || in_int64 x) && (npb || in_int64 y)
      then Ok (NpInt64 (wrap64 (f x y)))
      else Exc OverflowError
  | _, _ => Exc TypeError
  end.

Definition py_add := int_arith Z.add.
Definition py_sub := int_arith Z.sub.
Definition py_mul := int_arith Z.mul.

(** [//] and [%]: Python ints raise on a zero divisor, numpy returns 0. *)
Definition py_floordiv (a b : pyval) : result pyval :=
  match num_view a, num_view b with
  | Some (false, _), Some (false, 0) => Exc ZeroDivisionError
  | _, _ => int_arith (fun x y => if y =? 0 then 0 else x / y) a b
  end.

Definition py_mod (a b : pyval) : result pyval :=
  match num_view a, num_view b with
  | Some (false, _), Some (false, 0) => Exc ZeroDivisionError
  | _, _ => int_arith (fun x y => if y =? 0 then 0 else x mod y) a b
  end.

(** [/]: float result; Python ints raise on a zero divisor, numpy gives
    inf or nan. *)
Definition py_truediv (a b : pyval) : result pyfloat :=
  match num_view a, num_view b with
  | Some (npa, x), Some (npb, y) =>
      if negb (npa || npb) then
        if y =? 0 then Exc ZeroDivisionError
        else Ok (FQ (inject_Z x / inject_Z y))
      else if (npa || in_int64 x) && (npb || in_int64 y) then
        if y =? 0 then Ok (if x =? 0 then FNaN else FInf (0 <? x))
        else Ok (FQ (inject_Z x / inject_Z y))
      else Exc OverflowError
  | _, _ => Exc TypeError
  end.

(** Integer comparison [a <= b] and [a > b]. *)
Definition py_le (a b : pyval) : result bool :=
  match num_view a, num_view b with
  | Some (_, x), Some (_, y) => Ok (x <=? y)
  | _, _ => Exc TypeError
  end.

Definition py_gt (a b : pyval) : result bool :=
  match num_view a, num_view b with
  | Some (_, x), Some (_, y) => Ok (x >? y)
  | _, _ => Exc TypeError
  end.

(** [bool(v)] *)
Definition py_truthy (v : pyval) : bool :=
  match v with
  | PNone => false
  | PBool b => b
  | PInt z | NpInt64 z => negb (z =? 0)
  | PStr s => negb (String.eqb s "")
  | PDate _ | PTime _ => true
  | PList l => negb (match l with [] => true | _ => false end)
  | PDict kv => negb (match kv with [] => true | _ => false end)
  end.

(** The integer value of an int, bool or numpy int64. *)
Definition int_value (v : pyval) : option Z := option_map snd (num_view v).

(** ** dict *)

Fixpoint dict_lookup {V} (k : string) (kv : list (string * V)) : option V :=
  match kv with
  | [] => None
  | (k', v) :: t => if String.eqb k k' then Some v else dict_lookup k t
  end.

(** [d[k] = v]: an existing key keeps its position, a new key is appended. *)
Fixpoint dict_set (k : string) (v : pyval) (kv : list (string * pyval))
  : list (string * pyval) :=
  match kv with
  | [] => [(k, v)]
  | (k', v') :: t =>
      if String.eqb k k' then (k', v) :: t else (k', v') :: dict_set k v t
  end.

(** [d[k]] *)
Definition getitem (d : pyval) (k : string) : result pyval :=
  match d with
  | PDict kv => match dict_lookup k kv with Some v => Ok v | None => Exc KeyError end
  | _ => Exc TypeError
  end.

(** ** Tasks: one row of the tasks DataFrame *)

Record Task := mkTask {
  Title : string; Description : string; Date : date;
  Start : time; End : time; Status : bool; Color : string }.

Definition task_eqb (a b : Task) : bool :=
  String.eqb (Title a) (Title b) && String.eqb (Description a) (Description b)
  && date_eqb (Date a) (Date b) && time_eqb (Start a) (Start b)
  && time_eqb (End a) (End b) && Bool.eqb (Status a) (Status b)
  && String.eqb (Color a) (Color b).

(** [DataFrame.equals] *)
Fixpoint tasks_eqb (a b : list Task) : bool :=
  match a, b with
  | [], [] => true
  | x :: a', y :: b' => task_eqb x y && tasks_eqb a' b'
  | _, _ => false
  end.

Definition count_completed (df : list Task) : Z :=
  Z.of_nat (List.length (filter Status df)).

(** [df['Status'].sum()] on a boolean column: a numpy int64. *)
Definition status_sum (df : list Task) : pyval :=
  NpInt64 (wrap64 (count_completed df)).

(** ** GamificationService.calculate_stats *)

Record Stats := mkStats { xp : pyval; level : pyval; progress : pyfloat }.

Definition calculate_stats (df : list Task) (boss_xp : pyval) : result Stats :=
  let completed_count := match df with [] => PInt 0 | _ :: _ => status_sum df end in
  m <- py_mul completed_count (PInt XP_PER_TASK) ;;
  current_xp <- py_add m boss_xp ;;
  q <- py_floordiv current_xp (PInt LEVEL_BASE_XP) ;;
  lvl <- py_add q (PInt 1) ;;
  r <- py_mod current_xp (PInt LEVEL_BASE_XP) ;;
  prog <- py_truediv r (PInt LEVEL_BASE_XP) ;;
  Ok (mkStats current_xp lvl prog).

(** ** GamificationService.calculate_streak *)

(** [Series.unique()]: first occurrences, in order. *)
Fixpoint unique_from (seen : list date) (l : list date) : list date :=
  match l with
  | [] => []
  | x :: t =>
      if existsb (date_eqb x) seen then unique_from seen t
      else x :: unique_from (x :: seen) t
  end.

Definition unique (l : list date) : list date := unique_from [] l.

(** [sorted(..., reverse=True)] *)
Fixpoint insert_desc (x : date) (l : list date) : list date :=
  match l with
  | [] => [x]
  | y :: t => if date_ltb y x then x :: y :: t else y :: insert_desc x t
  end.

Definition sort_desc (l : list date) : list date := fold_right insert_desc [] l.

(** [dates = sorted(completed['Date'].unique(), reverse=True)] *)
Definition sorted_dates (df : list Task) : list date :=
  sort_desc (unique (map Date (filter Status df))).

(** The [for i in range(1, len(dates))] loop, with its [break]. *)
Fixpoint streak_walk (current_date : date) (dates : list date) (streak : Z) : Z :=
  match dates with
  | [] => streak
  | d :: rest =>
      if days_between current_date d =? 1 then streak_walk d rest (streak + 1)
      else streak
  end.

Definition calculate_streak (today : date) (df : list Task) : Z :=
  match df with
  | [] => 0
  | _ :: _ =>
      match filter Status df with
      | [] => 0
      | _ :: _ =>
          match sorted_dates df with
          | [] => 0
          | d0 :: rest =>
              if days_between today d0 >? 1 then 0 else streak_walk d0 rest 1
          end
      end
  end.

(** ** BossManager.deal_damage

    [boss['CurrentHP'] -= damage] reads the key, subtracts and stores the
    result under the same key: the dict is updated in place. *)
Definition deal_damage (boss hit_count : pyval) : result (pyval * pyval) :=
  damage <- py_mul hit_count (PInt BOSS_DMG_PER_TASK) ;;
  cur <- getitem boss "CurrentHP" ;;
  hp <- py_sub cur damage ;;
  match boss with
  | PDict kv => Ok (PDict (dict_set "CurrentHP" hp kv), damage)
  | _ => Exc TypeError
  end.

(** ** st.session_state and a state-and-exception monad over it *)

Record session := mkSession {
  tasks : list Task; boss_xp : pyval; active_boss : pyval }.

(** A step returns its outcome and the session as it stands at the end, or at
    the point where an exception was raised. *)
Definition M (A : Type) : Type := session -> result A * session.

Definition mret {A} (a : A) : M A := fun s => (Ok a, s).

Definition mbind {A B} (c : M A) (k : A -> M B) : M B :=
  fun s => match c s with
           | (Ok a, s') => k a s'
           | (Exc e, s') => (Exc e, s')
           end.

Notation "x <-- c ;; k" := (mbind c (fun x => k))
  (at level 61, c at next level, right associativity).

Definition lift {A} (r : result A) : M A := fun s => (r, s).
Definition gets {A} (f : session -> A) : M A := fun s => (Ok (f s), s).

Definition set_tasks (t : list Task) : M unit :=
  fun s => (Ok tt, mkSession t (boss_xp s) (active_boss s)).
Definition set_boss_xp (v : pyval) : M unit :=
  fun s => (Ok tt, mkSession (tasks s) v (active_boss s)).
Definition set_active_boss (v : pyval) : M unit :=
  fun s => (Ok tt, mkSession (tasks s) (boss_xp s) v).

Definition is_exception (e : exn) : bool :=
  match e with Unmodelled => false | _ => true end.

(** [try: c except Exception as e: h e] *)
Definition try_except {A} (c : M A) (h : exn -> M A) : M A :=
  fun s => match c s with
           | (Exc e, s') => if is_exception e then h e s' else (Exc e, s')
           | r => r
           end.

(** ** UI.render_boss_arena *)

(** The result of [max(0, x)] for a float [x]: [x] when [x > 0], else the
    int [0]. *)
Inductive pynum : Type :=
| NInt (z : Z)
| NFloat (f : pyfloat).

Definition py_max0 (f : pyfloat) : pynum :=
  match f with
  | FQ q => if Qle_bool q 0 then NInt 0 else NFloat f
  | FInf true => NFloat f
  | _ => NInt 0
  end.

(** [st.progress(v)]: an int must lie in [0, 100], a float in [0.0, 1.0]. *)
Definition st_progress (v : pynum) : result unit :=
  match v with
  | NInt z => if (0 <=? z) && (z <=? 100) then Ok tt else Exc StreamlitAPIException
  | NFloat (FQ q) =>
      if Qle_bool 0 q && Qle_bool q 1 then Ok tt else Exc StreamlitAPIException
  | NFloat _ => Exc StreamlitAPIException
  end.

Definition render_boss_arena : M unit :=
  boss <-- gets active_boss ;;
  if negb (py_truthy boss) then mret tt else
  _ <-- lift (getitem boss "Image") ;;
  _ <-- lift (getitem boss "Name") ;;
  cur <-- lift (getitem boss "CurrentHP") ;;
  mx <-- lift (getitem boss "MaxHP") ;;
  ratio <-- lift (py_truediv cur mx) ;;
  _ <-- lift (st_progress (py_max0 ratio)) ;;
  defeated <-- lift (py_le cur (PInt 0)) ;;
  if defeated then
    x <-- gets boss_xp ;;
    x' <-- lift (py_add x (PInt BOSS_BONUS_XP)) ;;
    _ <-- set_boss_xp x' ;;
    set_active_boss PNone
  else mret tt.

(** ** main: the task-edit step after [UI.render_task_editor]

    [new_df] is the frame returned by the data editor. *)
Definition apply_task_edit (new_df : list Task) : M unit :=
  old_df <-- gets tasks ;;
  if tasks_eqb new_df old_df then mret tt else
  let old_completed := status_sum old_df in
  let new_completed := status_sum new_df in
  _ <-- set_tasks new_df ;;
  more <-- lift (py_gt new_completed old_completed) ;;
  if more then
    diff <-- lift (py_sub new_completed old_completed) ;;
    boss <-- gets active_boss ;;
    if py_truthy boss then
      r <-- lift (deal_damage boss diff) ;;
      set_active_boss (fst r)
    else mret tt
  else mret tt.

(** ** Persisted format: JSON documents

    [json] is the document [json.dumps] writes and [json.load] reads back.
    The save file carries no fractional numbers. Objects are the dicts
    [json.load] builds, so their keys are distinct. *)

Inductive json : Type :=
| JNull
| JBool (b : bool)
| JInt (z : Z)
| JStr (s : string)
| JArr (l : list json)
| JObj (kv : list (string * json)).

(** [%0wd] for values below 10^w (years, months, days, hours, ...). *)
Fixpoint pad_dec (w : nat) (n : Z) : string :=
  match w with
  | O => ""
  | S w' => pad_dec w' (n / 10) ++ String (ascii_of_nat (48 + Z.to_nat (n mod 10))) ""
  end.

(** [date.isoformat()] *)
Definition date_isoformat (d : date) : string :=
  pad_dec 4 (year d) ++ "-" ++ pad_dec 2 (month d) ++ "-" ++ pad_dec 2 (day d).

(** [time.isoformat()] of a naive time *)
Definition time_isoformat (t : time) : string :=
  pad_dec 2 (hour t) ++ ":" ++ pad_dec 2 (minute t) ++ ":" ++ pad_dec 2 (second t)
  ++ (if microsecond t =? 0 then "" else "." ++ pad_dec 6 (microsecond t)).

(** [json.dumps(..., cls=DateEncoder)]: dates and times go through
    [isoformat()]; any other non-JSON object reaches
    [json.JSONEncoder.default], which raises TypeError. A numpy int64 is not a
    Python int, so it is one of those objects. *)
Fixpoint to_json (v : pyval) : result json :=
  match v with
  | PNone => Ok JNull
  | PBool b => Ok (JBool b)
  | PInt z => Ok (JInt z)
  | NpInt64 _ => Exc TypeError
  | PStr s => Ok (JStr s)
  | PDate d => Ok (JStr (date_isoformat d))
  | PTime t => Ok (JStr (time_isoformat t))
  | PList l =>
      ys <- (fix go (l : list pyval) : result (list json) :=
               match l with
               | [] => Ok []
               | x :: t => y <- to_json x ;; ys <- go t ;; Ok (y :: ys)
               end) l ;;
      Ok (JArr ys)
  | PDict kv =>
      ys <- (fix go (kv : list (string * pyval)) : result (list (string * json)) :=
               match kv with
               | [] => Ok []
               | (k, x) :: t => y <- to_json x ;; ys <- go t ;; Ok ((k, y) :: ys)
               end) kv ;;
      Ok (JObj ys)
  end.

(** The Python object [json.load] returns. *)
Fixpoint from_json (j : json) : pyval :=
  match j with
  | JNull => PNone
  | JBool b => PBool b
  | JInt z => PInt z
  | JStr s => PStr s
  | JArr l => PList (map from_json l)
  | JObj kv => PDict (map (fun '(k, x) => (k, from_json x)) kv)
  end.

Definition json_truthy (j : json) : bool := py_truthy (from_json j).

(** ** StateRepository.export_data *)

(** One record of [df.to_dict(orient="records")]; pandas boxes the boolean
    column to Python bools. *)
Definition task_record (t : Task) : pyval :=
  PDict [("Title", PStr (Title t)); ("Description", PStr (Description t));
         ("Date", PDate (Date t)); ("Start", PTime (Start t)); ("End", PTime (End t));
         ("Status", PBool (Status t)); ("Color", PStr (Color t))].

Definition export_data (s : session) : result json :=
  to_json (PDict [("tasks", PList (map task_record (tasks s)));
                  ("boss_xp", boss_xp s);
                  ("active_boss", active_boss s)]).

(** ** StateRepository.load_data *)

Fixpoint rmap {A B} (f : A -> result B) (l : list A) : result (list B) :=
  match l with
  | [] => Ok []
  | x :: t => y <- f x ;; ys <- rmap f t ;; Ok (y :: ys)
  end.

(** [json_data.get(k, default)]; a document that is not an object has no
    [get]. *)
Definition json_get (j : json) (k : string) (default : json) : result json :=
  match j with
  | JObj kv => Ok (match dict_lookup k kv with Some v => v | None => default end)
  | _ => Exc AttributeError
  end.

(** *** pd.DataFrame(tasks)

    A frame is its column labels and its rows; a row maps each column to its
    cell, and a column missing from the row holds NaN. *)
Record frame := mkFrame {
  columns : list string; rows : list (list (string * json)) }.

(** The column labels of a list of dicts: every key, in order of first
    appearance. *)
Fixpoint add_keys (cols : list string) (kv : list (string * json)) : list string :=
  match kv with
  | [] => cols
  | (k, _) :: t =>
      add_keys (if existsb (String.eqb k) cols then cols else cols ++ [k]) t
  end.

Fixpoint all_objects (l : list json) : option (list (list (string * json))) :=
  match l with
  | [] => Some []
  | JObj kv :: t => option_map (cons kv) (all_objects t)
  | _ :: _ => None
  end.

Definition is_scalar (j : json) : bool :=
  match j with JNull | JBool _ | JInt _ | JStr _ => true | _ => false end.

Fixpoint all_arrays (kv : list (string * json)) : option (list (string * list json)) :=
  match kv with
  | [] => Some []
  | (k, JArr l) :: t => option_map (cons (k, l)) (all_arrays t)
  | _ :: _ => None
  end.

(** Row [i] of a dict of equal-length lists. *)
Definition column_row (cols : list (string * list json)) (i : nat) : list (string * json) :=
  map (fun '(k, l) => (k, nth i l JNull)) cols.

(** [pd.DataFrame(data)] for the value [json.load] gives:
    - a list of dicts is one row per dict;
    - a dict of lists of one length is one column per key;
    - a dict of lists of different lengths raises ValueError ("All arrays must
      be of the same length"), and so does a dict of scalars ("If using all
      scalar values, you must pass an index");
    - a string, an int or a bool raises ValueError ("DataFrame constructor not
      properly called!"), and None gives the empty frame.
    A list holding something other than dicts, and a dict mixing lists with
    other values, are not followed further: [Unmodelled]. *)
Definition py_DataFrame (data : json) : result frame :=
  match data with
  | JNull => Ok (mkFrame [] [])
  | JBool _ | JInt _ | JStr _ => Exc ValueError
  | JArr l =>
      match all_objects l with
      | Some rs => Ok (mkFrame (fold_left add_keys rs []) rs)
      | None => Exc Unmodelled
      end
  | JObj [] => Ok (mkFrame [] [])
  | JObj kv =>
      match all_arrays kv with
      | Some (((_, l0) :: _) as cols) =>
          if forallb (fun '(_, l) => Nat.eqb (List.length l) (List.length l0)) cols
          then Ok (mkFrame (map fst kv) (map (column_row cols) (seq 0 (List.length l0))))
          else Exc ValueError
      | _ => if forallb (fun '(_, v) => is_scalar v) kv then Exc ValueError
             else Exc Unmodelled
      end
  end.

(** [df[k].apply(f)]: KeyError when [k] is not a column, else [f] on every
    cell in row order, the first exception propagating. *)
Definition apply_column {A} (f : option json -> result A) (k : string) (df : frame)
  : result (list A) :=
  if existsb (String.eqb k) (columns df)
  then rmap (fun r => f (dict_lookup k r)) (rows df)
  else Exc KeyError.

Fixpoint strings_eqb (a b : list string) : bool :=
  match a, b with
  | [], [] => true
  | x :: a', y :: b' => String.eqb x y && strings_eqb a' b'
  | _, _ => false
  end.

(** The columns of [DEFAULT_TASK], in the order a typed task frame has them. *)
Definition TASK_COLUMNS : list string :=
  ["Title"; "Description"; "Date"; "Start"; "End"; "Status"; "Color"].

(** A loaded row as a [Task]: Title, Description and Color must be strings and
    Status a bool. A frame with other cells, or other columns, is one the
    [Task] record cannot hold: [Unmodelled]. *)
Definition task_of_row (r : list (string * json)) (d : date) (st en : time) : result Task :=
  match dict_lookup "Title" r, dict_lookup "Description" r,
        dict_lookup "Status" r, dict_lookup "Color" r with
  | Some (JStr a), Some (JStr b), Some (JBool s), Some (JStr c) =>
      Ok (mkTask a b d st en s c)
  | _, _, _, _ => Exc Unmodelled
  end.

Fixpoint tasks_of_rows (rs : list (list (string * json))) (ds : list date)
    (ss es : list time) : result (list Task) :=
  match rs, ds, ss, es with
  | r :: rs', d :: ds', st :: ss', en :: es' =>
      t <- task_of_row r d st en ;; ts <- tasks_of_rows rs' ds' ss' es' ;; Ok (t :: ts)
  | _, _, _, _ => Ok []
  end.

Inductive load_report : Type :=
| Loaded
| Corrupt (e : exn).

Section Load.

(** [date.fromisoformat] and [time.fromisoformat] on a string: the value, or
    ValueError. *)
Variable date_fromisoformat : string -> result date.
Variable time_fromisoformat : string -> result time.

(** A cell given to [fromisoformat]: a missing cell ([None], pandas' NaN) and
    every non-string raise TypeError. *)
Definition parse_date_cell (c : option json) : result date :=
  match c with
  | Some (JStr s) => date_fromisoformat s
  | _ => Exc TypeError
  end.

Definition parse_time_cell (c : option json) : result time :=
  match c with
  | Some (JStr s) => time_fromisoformat s
  | _ => Exc TypeError
  end.

(** [df = pd.DataFrame(tasks)], then the [Date], [Start] and [End] columns,
    each parsed with [apply]. *)
Definition build_frame (t : json) : result (list Task) :=
  df <- py_DataFrame t ;;
  ds <- apply_column parse_date_cell "Date" df ;;
  ss <- apply_column parse_time_cell "Start" df ;;
  es <- apply_column parse_time_cell "End" df ;;
  if strings_eqb (columns df) TASK_COLUMNS
  then tasks_of_rows (rows df) ds ss es
  else Exc Unmodelled.

(** [st.rerun()] leaves the run through an exception that is not an
    [Exception], so the handler does not see it: a successful load is
    [Loaded]. *)
Definition load_data (json_data : json) : M load_report :=
  try_except
    (bx <-- lift (json_get json_data "boss_xp" (JInt 0)) ;;
     _ <-- set_boss_xp (from_json bx) ;;
     ab <-- lift (json_get json_data "active_boss" JNull) ;;
     _ <-- set_active_boss (from_json ab) ;;
     t <-- lift (json_get json_data "tasks" (JArr [])) ;;
     _ <-- (if json_truthy t
            then df <-- lift (build_frame t) ;; set_tasks df
            else set_tasks []) ;;
     mret Loaded)
    (fun e => mret (Corrupt e)).

End Load.

(** ** date.fromisoformat and time.fromisoformat (C implementation)

    Python 3.7 to 3.10 accept only what [isoformat()] writes; 3.11 widened
    both to most ISO 8601 forms ([20240301], [2024-W09-5], [T09:00],
    [09:00Z], ...). The model settles the strings on which every version
    agrees and leaves the others [Unmodelled]:
    - a date: YYYY-MM-DD is that date, or ValueError when the [date]
      constructor rejects it or a month or day digit is not a digit; a string
      whose first four characters are not all digits is a ValueError;
    - a time: HH:MM:SS, HH:MM:SS.fff and HH:MM:SS.ffffff with fields the
      [time] constructor accepts are that time; a string that is empty or
      starts with neither a digit nor [T] is a ValueError. A time with a UTC
      offset parses to an aware time, which the [Task] record does not carry:
      [Unmodelled]. *)

Definition digit_value (c : ascii) : option Z :=
  let n := nat_of_ascii c in
  if (48 <=? n)%nat && (n <=? 57)%nat then Some (Z.of_nat n - 48) else None.

Fixpoint digits_value (acc : Z) (cs : list ascii) : option Z :=
  match cs with
  | [] => Some acc
  | c :: t => match digit_value c with
              | Some v => digits_value (acc * 10 + v) t
              | None => None
              end
  end.

Definition days_in_month (y m : Z) : Z :=
  nth (Z.to_nat m) [-1; 31; 28; 31; 30; 31; 30; 31; 31; 30; 31; 30; 31] 0
  + (if (m =? 2) && is_leap y then 1 else 0).

(** The checks of the [date(y, m, d)] constructor. *)
Definition valid_date (y m d : Z) : bool :=
  (1 <=? y) && (y <=? 9999) && (1 <=? m) && (m <=? 12)
  && (1 <=? d) && (d <=? days_in_month y m).

(** The checks of the [time(h, m, s, us)] constructor. *)
Definition valid_time (h m s us : Z) : bool :=
  (0 <=? h) && (h <=? 23) && (0 <=? m) && (m <=? 59) && (0 <=? s) && (s <=? 59)
  && (0 <=? us) && (us <=? 999999).

Definition is_char (c : ascii) (x : ascii) : bool := Ascii.eqb c x.

Definition py_date_fromisoformat (s : string) : result date :=
  match list_ascii_of_string s with
  | y1 :: y2 :: y3 :: y4 :: rest =>
      match digits_value 0 [y1; y2; y3; y4] with
      | None => Exc ValueError
      | Some y =>
          match rest with
          | [c1; m1; m2; c2; d1; d2] =>
              if is_char c1 "-"%char && is_char c2 "-"%char then
                match digits_value 0 [m1; m2], digits_value 0 [d1; d2] with
                | Some m, Some d =>
                    if valid_date y m d then Ok (mkDate y m d) else Exc ValueError
                | _, _ => Exc ValueError
                end
              else Exc Unmodelled
          | _ => Exc Unmodelled
          end
      end
  | _ => Exc ValueError
  end.

Definition mk_time (h m s us : Z) : result time :=
  if valid_time h m s us then Ok (mkTime h m s us) else Exc Unmodelled.

Definition py_time_fromisoformat (s : string) : result time :=
  let two cs := digits_value 0 cs in
  match list_ascii_of_string s with
  | [] => Exc ValueError
  | (c0 :: _) as cs =>
      if negb (match digit_value c0 with Some _ => true | None => false end)
         && negb (is_char c0 "T"%char) then Exc ValueError else
      match cs with
      | h1 :: h2 :: c1 :: m1 :: m2 :: c2 :: s1 :: s2 :: rest =>
          if is_char c1 ":"%char && is_char c2 ":"%char then
            match two [h1; h2], two [m1; m2], two [s1; s2] with
            | Some h, Some m, Some sec =>
                match rest with
                | [] => mk_time h m sec 0
                | [dot; f1; f2; f3] =>
                    if is_char dot "."%char then
                      match digits_value 0 [f1; f2; f3] with
                      | Some ms => mk_time h m sec (ms * 1000)
                      | None => Exc Unmodelled
                      end
                    else Exc Unmodelled
                | [dot; f1; f2; f3; f4; f5; f6] =>
                    if is_char dot "."%char then
                      match digits_value 0 [f1; f2; f3; f4; f5; f6] with
                      | Some us => mk_time h m sec us
                      | None => Exc Unmodelled
                      end
                    else Exc Unmodelled
                | _ => Exc Unmodelled
                end
            | _, _, _ => Exc Unmodelled
            end
          else Exc Unmodelled
      | _ => Exc Unmodelled
      end
  end.

Definition load_data_py := load_data py_date_fromisoformat py_time_fromisoformat.

(** A date the [date] constructor accepts. *)
Definition valid (d : date) : bool := valid_date (year d) (month d) (day d).

(** ** StateRepository.initialize_session

    [st.session_state] before initialization: each key may be missing.
    [DEFAULT_TASK]'s date is [date.today()] when the class body runs. *)
Record session_state := mkState {
  st_tasks : option (list Task); st_boss_xp : option pyval;
  st_active_boss : option pyval }.

Definition DEFAULT_TASK (import_day : date) : Task :=
  mkTask "Install Streamlit" "pip install streamlit" import_day
    (mkTime 9 0 0 0) (mkTime 10 0 0 0) true "#33B679".

Definition initialize_session (import_day : date) (ss : session_state) : session_state :=
  let ss := match st_tasks ss with
            | Some _ => ss
            | None => mkState (Some [DEFAULT_TASK import_day]) (st_boss_xp ss) (st_active_boss ss)
            end in
  let ss := match st_boss_xp ss with
            | Some _ => ss
            | None => mkState (st_tasks ss) (Some (PInt 0)) (st_active_boss ss)
            end in
  match st_active_boss ss with
  | Some _ => ss
  | None => mkState (st_tasks ss) (st_boss_xp ss) (Some PNone)
  end.

(** The session once every key is present. *)
Definition to_session (ss : session_state) : option session :=
  match st_tasks ss, st_boss_xp ss, st_active_boss ss with
  | Some t, Some x, Some b => Some (mkSession t x b)
  | _, _, _ => None
  end.

(** ** UI.render_sidebar: the New Quest and Boss forms *)

(** [st.form_submit_button("Add")]: the new row, with Status False, is
    concatenated after the existing ones. *)
Definition add_quest (title desc : string) (d : date) (t_s t_e : time)
    (color : string) : M unit :=
  df <-- gets tasks ;;
  set_tasks (df ++ [mkTask title desc d t_s t_e false color]).

(** The Boss section: without an active boss, [summon] is the submitted
    Summon form (the name and the slider's HP, 50 to 500); with one, [flee]
    is the Flee Battle button. The result is [true] when the section calls
    [st.rerun()]. *)
Definition boss_form (summon : option (string * Z)) (flee : bool) : M bool :=
  boss <-- gets active_boss ;;
  if negb (py_truthy boss) then
    match summon with
    | Some (name, hp) =>
        _ <-- set_active_boss (PDict [("Name", PStr name); ("MaxHP", PInt hp);
                                      ("CurrentHP", PInt hp); ("Image", PStr "🐉")]) ;;
        mret true
    | None => mret false
    end
  else if flee then _ <-- set_active_boss PNone ;; mret true else mret false.

(** ** One run of main

    What the widgets answer in a run: [in_restore] is an uploaded file with
    the Restore button pressed, [in_new_quest] a submitted New Quest form,
    [in_summon] and [in_flee] the Boss section, and [in_edited] the frame
    [st.data_editor] returns. *)
Record ui_inputs := mkInputs {
  in_restore : option json;
  in_new_quest : option (string * string * date * time * time * string);
  in_summon : option (string * Z);
  in_flee : bool;
  in_edited : list Task }.

(** [UI.render_sidebar]: [json_str = StateRepository.export_data()] first;
    the result is [true] when the sidebar ends the run with [st.rerun()]
    (a successful load, a summon or a flee). *)
Definition render_sidebar (inp : ui_inputs) : M bool :=
  _ <-- (fun s => (export_data s, s)) ;;
  loaded <-- (match in_restore inp with
              | Some j => rep <-- load_data_py j ;;
                          mret (match rep with Loaded => true | Corrupt _ => false end)
              | None => mret false
              end) ;;
  if loaded then mret true else
  _ <-- (match in_new_quest inp with
         | Some (title, desc, d, t_s, t_e, color) => add_quest title desc d t_s t_e color
         | None => mret tt
         end) ;;
  boss_form (in_summon inp) (in_flee inp).

(** [UI.render_hud]: the metrics take any number; the caption computes
    [stats['level'] * LEVEL_BASE_XP]; [st.progress] checks the progress. *)
Definition render_hud (stats : Stats) (streak : Z) : result unit :=
  _ <- py_mul (level stats) (PInt LEVEL_BASE_XP) ;;
  st_progress (NFloat (progress stats)).

(** How a run ends: normally, or through [st.rerun()], after which Streamlit
    starts the next run on the session as it stands. An uncaught exception
    ends it as [Exc]. *)
Inductive run_end : Type := RunDone | RunRerun.

(** [main()] on a session whose three keys are present, which
    [initialize_session] leaves as it is. [UI.render_calendar] only draws the
    tasks and is left out. *)
Definition main_run (today : date) (inp : ui_inputs) : M run_end :=
  rerun <-- render_sidebar inp ;;
  if rerun then mret RunRerun else
  df <-- gets tasks ;;
  bx <-- gets boss_xp ;;
  stats <-- lift (calculate_stats df bx) ;;
  let streak := calculate_streak today df in
  _ <-- lift (render_hud stats streak) ;;
  _ <-- render_boss_arena ;;
  old_df <-- gets tasks ;;
  _ <-- apply_task_edit (in_edited inp) ;;
  if tasks_eqb (in_edited inp) old_df then mret RunDone else mret RunRerun.

(** ** Spec-side predicates for the save format *)

(** A value [json.dumps] writes as itself and [json.load] reads back as
    itself: None, bools, ints, strings, and lists and dicts of those. *)
Fixpoint plain (v : pyval) : bool :=
  match v with
  | PNone | PBool _ | PInt _ | PStr _ => true
  | NpInt64 _ | PDate _ | PTime _ => false
  | PList l =>
      (fix go (l : list pyval) : bool :=
         match l with [] => true | x :: t => plain x && go t end) l
  | PDict kv =>
      (fix go (kv : list (string * pyval)) : bool :=
         match kv with [] => true | (_, x) :: t => plain x && go t end) kv
  end.

(** A value that holds a numpy int64 somewhere. *)
Fixpoint has_np (v : pyval) : bool :=
  match v with
  | NpInt64 _ => true
  | PNone | PBool _ | PInt _ | PStr _ | PDate _ | PTime _ => false
  | PList l =>
      (fix go (l : list pyval) : bool :=
         match l with [] => false | x :: t => has_np x || go t end) l
  | PDict kv =>
      (fix go (kv : list (string * pyval)) : bool :=
         match kv with [] => false | (_, x) :: t => has_np x || go t end) kv
  end.

(** The JSON object [export_data] writes for one task record. *)
Definition task_row (t : Task) : list (string * json) :=
  [("Title", JStr (Title t)); ("Description", JStr (Description t));
   ("Date", JStr (date_isoformat (Date t)));
   ("Start", JStr (time_isoformat (Start t)));
   ("End", JStr (time_isoformat (End t)));
   ("Status", JBool (Status t)); ("Color", JStr (Color t))].

Definition task_json (t : Task) : json := JObj (task_row t).

(** A time the [time] constructor accepts, and a task whose date and times
    are such. *)
Definition valid_clock (t : time) : bool :=
  valid_time (hour t) (minute t) (second t) (microsecond t).

Definition valid_task (t : Task) : bool :=
  valid (Date t) && valid_clock (Start t) && valid_clock (End t).

(** ** Spec-side notions used to state the claims *)

(** The most recent completion date, read from the spec: the latest of the
    completed tasks' dates in chronological (tuple) order. *)
Fixpoint latest (l : list date) : option date :=
  match l with
  | [] => None
  | d :: t => match latest t with
              | None => Some d
              | Some m => Some (if date_ltb m d then d else m)
              end
  end.

Definition most_recent_completion (df : list Task) : option date :=
  latest (map Date (filter Status df)).

(** The day gap between the [i]-th and the [i+1]-th date of a list. *)
Definition step_gap (l : list date) (i : nat) : option Z :=
  match nth_error l i, nth_error l (S i) with
  | Some a, Some b => Some (days_between a b)
  | _, _ => None
  end.

(** ** Small evaluations *)

Definition d2024 (m d : Z) : date := mkDate 2024 m d.
Definition nine : time := mkTime 9 0 0 0.
Definition ten : time := mkTime 10 0 0 0.
Definition task_on (d : date) (done : bool) : Task :=
  mkTask "Quest" "" d nine ten done "#33B679".

(** A session with a live boss and a bonus of 500. *)
Definition session_before_load : session :=
  mkSession [task_on (d2024 3 1) true] (PInt 500)
    (PDict [("Name", PStr "Entropy Dragon"); ("MaxHP", PInt 100);
            ("CurrentHP", PInt 60); ("Image", PStr "dragon")]).

(** A save file whose only task has the Date "not-a-date". *)
Definition save_with_bad_date : json :=
  JObj [("tasks", JArr [JObj [("Title", JStr "Quest"); ("Description", JStr "");
                              ("Date", JStr "not-a-date"); ("Start", JStr "09:00:00");
                              ("End", JStr "10:00:00"); ("Status", JBool true);
                              ("Color", JStr "#33B679")]]);
        ("boss_xp", JInt 0); ("active_boss", JNull)].

(** One open task, bonus 0 and a boss at full health. *)
Definition session_before_edit : session :=
  mkSession [task_on (d2024 3 1) false] (PInt 0)
    (PDict [("Name", PStr "Entropy Dragon"); ("MaxHP", PInt 100);
            ("CurrentHP", PInt 100); ("Image", PStr "dragon")]).

(** A boss at full health whose MaxHP and CurrentHP are 2^63, one more than
    the largest int64, as a save file may hold them. *)
Definition huge_boss : pyval :=
  PDict [("Name", PStr "Entropy Dragon"); ("MaxHP", PInt two63);
         ("CurrentHP", PInt two63); ("Image", PStr "dragon")].

(** A save file with one open task, bonus 0 and [huge_boss]. *)
Definition save_with_huge_boss : json :=
  JObj [("tasks", JArr [JObj (task_row (task_on (d2024 3 1) false))]);
        ("boss_xp", JInt 0);
        ("active_boss", JObj [("Name", JStr "Entropy Dragon"); ("MaxHP", JInt two63);
                              ("CurrentHP", JInt two63); ("Image", JStr "dragon")])].

Example stats_empty :
  calculate_stats [] (PInt 0) = Ok (mkStats (PInt 0) (PInt 1) (FQ (0 # 500))).
Proof. reflexivity. Qed.

Example stats_ten_tasks :
  calculate_stats (repeat (task_on (d2024 3 1) true) 10) (PInt 0)
  = Ok (mkStats (NpInt64 500) (NpInt64 2) (FQ (0 # 500))).
Proof. reflexivity. Qed.

Example streak_today_yesterday :
  calculate_streak (d2024 3 1) [task_on (d2024 2 29) true; task_on (d2024 3 1) true] = 2.
Proof. reflexivity. Qed.

Example damage_test :
  deal_damage (PDict [("Name", PStr "Test Boss"); ("MaxHP", PInt 100); ("CurrentHP", PInt 100)]) (PInt 2)
  = Ok (PDict [("Name", PStr "Test Boss"); ("MaxHP", PInt 100); ("CurrentHP", PInt 80)], PInt 20).
Proof. reflexivity. Qed.

Example parse_date_ok :
  py_date_fromisoformat "2024-02-29" = Ok (d2024 2 29).
Proof. reflexivity. Qed.

Example parse_time_ok :
  py_time_fromisoformat "09:30:00.250" = Ok (mkTime 9 30 0 250000).
Proof. reflexivity. Qed.

Example iso_ok :
  date_isoformat (mkDate 5 1 9) = "0005-01-09" /\
  time_isoformat (mkTime 9 5 0 7) = "09:05:00.000007".
Proof. split; reflexivity. Qed.

(** * Proofs *)

(** ** Dates: the tuple order *)

Ltac zcase :=
  repeat match goal with
  | |- context [Z.ltb ?a ?b] => destruct (Z.ltb_spec a b)
  | |- context [Z.eqb ?a ?b] => destruct (Z.eqb_spec a b)
  | H : context [Z.ltb ?a ?b] |- _ => destruct (Z.ltb_spec a b)
  | H : context [Z.eqb ?a ?b] |- _ => destruct (Z.eqb_spec a b)
  end; simpl in *.

Lemma date_ltb_irrefl (a : date) : date_ltb a a = false.
Proof. destruct a; unfold date_ltb; simpl; zcase; lia. Qed.

Lemma date_ltb_trans (a b c : date) :
  date_ltb a b = true -> date_ltb b c = true -> date_ltb a c = true.
Proof. destruct a, b, c; unfold date_ltb; simpl; zcase; try lia; auto. Qed.

Lemma date_ltb_total (a b : date) :
  date_ltb a b = false -> date_ltb b a = false -> a = b.
Proof.
  destruct a as [ya ma da], b as [yb mb db]; unfold date_ltb; simpl; zcase;
    intros; try discriminate; f_equal; lia.
Qed.

Lemma date_eqb_eq (a b : date) : date_eqb a b = true <-> a = b.
Proof.
  destruct a as [ya ma da], b as [yb mb db]; unfold date_eqb; simpl; split.
  - zcase; intros; try discriminate; congruence.
  - intros H; injection H; intros; subst; zcase; congruence.
Qed.

(** ** The most recent date heads the sorted list *)

Lemma hd_sort_desc (l : list date) : hd_error (sort_desc l) = latest l.
Proof.
  induction l as [|a l IH]; [reflexivity|].
  simpl. destruct (sort_desc l) as [|y t]; simpl in *.
  - rewrite <- IH. reflexivity.
  - rewrite <- IH. destruct (date_ltb y a); reflexivity.
Qed.

Lemma latest_none (l : list date) : latest l = None <-> l = [].
Proof.
  destruct l as [|a l]; simpl; split; intros H; try reflexivity; try discriminate.
  destruct (latest l); discriminate.
Qed.

Lemma latest_max (l : list date) (m : date) :
  latest l = Some m -> In m l /\ forall y, In y l -> date_ltb m y = false.
Proof.
  revert m; induction l as [|a l IH]; intros m H; [discriminate|].
  simpl in H. destruct (latest l) as [m'|] eqn:E.
  - destruct (IH m' eq_refl) as [Hin Hmax].
    destruct (date_ltb m' a) eqn:Hlt; injection H as <-; split.
    + left; reflexivity.
    + intros y [<-|Hy]; [apply date_ltb_irrefl|].
      destruct (date_ltb a y) eqn:Hay; [|reflexivity].
      pose proof (Hmax y Hy) as C.
      rewrite (date_ltb_trans _ _ _ Hlt Hay) in C. discriminate.
    + right; exact Hin.
    + intros y [<-|Hy]; [exact Hlt|apply Hmax; exact Hy].
  - apply latest_none in E; subst l. injection H as <-.
    split; [left; reflexivity|]. intros y [<-|[]]; apply date_ltb_irrefl.
Qed.

Lemma unique_from_in (l seen : list date) (x : date) :
  In x (unique_from seen l) <-> In x l /\ ~ In x seen.
Proof.
  revert seen; induction l as [|a l IH]; intros seen; simpl.
  - tauto.
  - destruct (existsb (date_eqb a) seen) eqn:E.
    + rewrite IH. apply existsb_exists in E as [z [Hz Hq]].
      apply date_eqb_eq in Hq; subst z.
      split; [tauto|]. intros [[<-|H] H']; [contradiction|tauto].
    + simpl. rewrite IH. simpl.
      assert (~ In a seen) as Hna.
      { intros Hin. assert (existsb (date_eqb a) seen = true) as C.
        { apply existsb_exists. exists a. split; [exact Hin|apply date_eqb_eq; reflexivity]. }
        congruence. }
      split.
      * intros [<-|[H1 H2]]; [tauto|]. split; [tauto|]. intros Hs; apply H2; right; exact Hs.
      * intros [[<-|H1] H2]; [left; reflexivity|].
        destruct (date_eqb_eq a x) as [_ Hax].
        destruct (date_eqb a x) eqn:Eax.
        -- left. apply date_eqb_eq; exact Eax.
        -- right. split; [exact H1|]. intros [C|C]; [subst; rewrite (proj2 (date_eqb_eq x x) eq_refl) in Eax; discriminate|tauto].
Qed.

Lemma unique_in (l : list date) (x : date) : In x (unique l) <-> In x l.
Proof. unfold unique. rewrite unique_from_in. simpl. tauto. Qed.

Lemma latest_unique (l : list date) : latest (unique l) = latest l.
Proof.
  destruct (latest l) as [m|] eqn:E.
  - destruct (latest (unique l)) as [m'|] eqn:E'.
    + apply latest_max in E as [Hin Hmax]. apply latest_max in E' as [Hin' Hmax'].
      rewrite unique_in in Hin'.
      f_equal. apply date_ltb_total.
      * apply Hmax'. apply unique_in. exact Hin.
      * apply Hmax. exact Hin'.
    + apply latest_none in E'. apply latest_max in E as [Hin _].
      apply unique_in in Hin. rewrite E' in Hin. destruct Hin.
  - apply latest_none in E. subst l. reflexivity.
Qed.

Lemma sorted_dates_head (df : list Task) :
  hd_error (sorted_dates df) = most_recent_completion df.
Proof.
  unfold sorted_dates, most_recent_completion.
  rewrite hd_sort_desc. apply latest_unique.
Qed.

(** ** The walk of calculate_streak *)

Lemma streak_walk_ge (c : date) (l : list date) (s : Z) : s <= streak_walk c l s.
Proof.
  revert c s; induction l as [|d l IH]; intros c s; simpl; [lia|].
  destruct (days_between c d =? 1); [specialize (IH d (s + 1)); lia|lia].
Qed.

(** The walk adds the length of the run of one-day steps that starts at the
    anchor and stops at the first other gap. *)
Lemma streak_walk_run (l : list date) (c : date) (s : Z) :
  exists k, streak_walk c l s = s + Z.of_nat k /\ (k <= List.length l)%nat /\
    (forall i, (i < k)%nat -> step_gap (c :: l) i = Some 1) /\
    ((k < List.length l)%nat -> step_gap (c :: l) k <> Some 1).
Proof.
  revert c s; induction l as [|d l IH]; intros c s.
  - exists O. simpl. repeat split; intros; lia.
  - simpl streak_walk. destruct (Z.eqb_spec (days_between c d) 1) as [E|E].
    + destruct (IH d (s + 1)) as [k [Hk [Hlen [Hrun Hstop]]]].
      exists (S k). repeat split.
      * rewrite Hk. lia.
      * simpl; lia.
      * intros [|i] Hi; [unfold step_gap; simpl; rewrite E; reflexivity|].
        apply (Hrun i). lia.
      * intros Hlt. apply (Hstop). simpl in Hlt. lia.
    + exists O. repeat split.
      * lia.
      * lia.
      * intros; lia.
      * intros _. unfold step_gap; simpl. intros H; injection H; exact E.
Qed.

Lemma calculate_streak_eq (today : date) (df : list Task) :
  calculate_streak today df =
  match sorted_dates df with
  | [] => 0
  | d0 :: rest => if days_between today d0 >? 1 then 0 else streak_walk d0 rest 1
  end.
Proof.
  unfold calculate_streak. destruct df as [|t df]; [reflexivity|].
  destruct (filter Status (t :: df)) eqn:E; [|reflexivity].
  unfold sorted_dates. rewrite E. reflexivity.
Qed.

Lemma sorted_dates_nil (df : list Task) :
  sorted_dates df = [] <-> most_recent_completion df = None.
Proof.
  rewrite <- sorted_dates_head. destruct (sorted_dates df); simpl; split; congruence.
Qed.

(** The anchor check is the only way to a zero streak once some task is
    completed. *)
Lemma streak_anchor (today : date) (df : list Task) (m : date) :
  most_recent_completion df = Some m ->
  (days_between today m > 1 -> calculate_streak today df = 0) /\
  (days_between today m <= 1 -> calculate_streak today df >= 1).
Proof.
  intros Hm. rewrite calculate_streak_eq. rewrite <- sorted_dates_head in Hm.
  destruct (sorted_dates df) as [|d0 rest]; [discriminate|].
  injection Hm as ->. split; intros H.
  - destruct (Z.gtb_spec (days_between today m) 1); [reflexivity|lia].
  - destruct (Z.gtb_spec (days_between today m) 1); [lia|].
    pose proof (streak_walk_ge m rest 1). lia.
Qed.

Lemma streak_no_completion (today : date) (df : list Task) :
  most_recent_completion df = None -> calculate_streak today df = 0.
Proof.
  intros H. apply sorted_dates_nil in H. rewrite calculate_streak_eq, H. reflexivity.
Qed.

(** ** Valid dates: the tuple order agrees with the ordinal *)

Lemma days_before_year_step (y : Z) :
  days_before_year (y + 1) = days_before_year y + 365 + (if is_leap y then 1 else 0).
Proof.
  unfold days_before_year, is_leap.
  replace (y + 1 - 1) with y by lia.
  zcase; Z.div_mod_to_equations; lia.
Qed.

Lemma days_before_year_mono (y1 y2 : Z) :
  y1 <= y2 -> days_before_year y1 <= days_before_year y2.
Proof. unfold days_before_year. intros. Z.div_mod_to_equations. lia. Qed.

Ltac bool_facts :=
  repeat match goal with
  | H : _ && _ = true |- _ => apply andb_prop in H as [? ?]
  end;
  repeat match goal with
  | H : (_ <=? _) = true |- _ => apply Z.leb_le in H
  end.

Lemma month_cases (m : Z) : 1 <= m <= 12 ->
  m = 1 \/ m = 2 \/ m = 3 \/ m = 4 \/ m = 5 \/ m = 6 \/ m = 7 \/ m = 8 \/
  m = 9 \/ m = 10 \/ m = 11 \/ m = 12.
Proof. lia. Qed.

Lemma days_before_month_values (y : Z) :
  let L := if is_leap y then 1 else 0 in
  days_before_month y 1 = 0 /\ days_before_month y 2 = 31 /\
  days_before_month y 3 = 59 + L /\ days_before_month y 4 = 90 + L /\
  days_before_month y 5 = 120 + L /\ days_before_month y 6 = 151 + L /\
  days_before_month y 7 = 181 + L /\ days_before_month y 8 = 212 + L /\
  days_before_month y 9 = 243 + L /\ days_before_month y 10 = 273 + L /\
  days_before_month y 11 = 304 + L /\ days_before_month y 12 = 334 + L.
Proof. repeat split. Qed.

Lemma days_in_month_values (y : Z) :
  let L := if is_leap y then 1 else 0 in
  days_in_month y 1 = 31 /\ days_in_month y 2 = 28 + L /\
  days_in_month y 3 = 31 /\ days_in_month y 4 = 30 /\
  days_in_month y 5 = 31 /\ days_in_month y 6 = 30 /\
  days_in_month y 7 = 31 /\ days_in_month y 8 = 31 /\
  days_in_month y 9 = 30 /\ days_in_month y 10 = 31 /\
  days_in_month y 11 = 30 /\ days_in_month y 12 = 31.
Proof. repeat split. Qed.

Ltac month_tables y :=
  let L := fresh "L" in
  destruct (days_before_month_values y) as (?&?&?&?&?&?&?&?&?&?&?&?);
  destruct (days_in_month_values y) as (?&?&?&?&?&?&?&?&?&?&?&?);
  set (L := if is_leap y then 1 else 0) in *;
  assert (0 <= L <= 1) by (subst L; destruct (is_leap y); lia).

Lemma days_before_month_bounds (y m d : Z) :
  valid_date y m d = true ->
  0 <= days_before_month y m /\
  days_before_month y m + d <= 365 + (if is_leap y then 1 else 0).
Proof.
  unfold valid_date. intros H. bool_facts. month_tables y.
  destruct (month_cases m ltac:(lia)) as [->|[->|[->|[->|[->|[->|[->|[->|[->|[->|[->| ->]]]]]]]]]]];
    lia.
Qed.

Lemma days_before_month_mono (y m1 d1 m2 : Z) :
  valid_date y m1 d1 = true -> 1 <= m2 <= 12 -> m1 < m2 ->
  days_before_month y m1 + d1 <= days_before_month y m2.
Proof.
  unfold valid_date. intros H Hm2 Hlt. bool_facts. month_tables y.
  destruct (month_cases m1 ltac:(lia)) as [->|[->|[->|[->|[->|[->|[->|[->|[->|[->|[->| ->]]]]]]]]]]];
  destruct (month_cases m2 ltac:(lia)) as [->|[->|[->|[->|[->|[->|[->|[->|[->|[->|[->| ->]]]]]]]]]]];
    lia.
Qed.

Lemma toordinal_mono (a b : date) :
  valid a = true -> valid b = true -> date_ltb a b = true -> toordinal a < toordinal b.
Proof.
  destruct a as [ya ma da], b as [yb mb db]; unfold valid, toordinal, date_ltb; simpl.
  intros Ha Hb Hlt.
  pose proof (days_before_month_bounds _ _ _ Ha) as [Ha0 Ha1].
  pose proof (days_before_month_bounds _ _ _ Hb) as [Hb0 Hb1].
  assert (Hvb := Hb). unfold valid_date in Hvb. bool_facts.
  destruct (Z.ltb_spec ya yb) as [Hy|Hy].
  - pose proof (days_before_year_step ya).
    pose proof (days_before_year_mono (ya + 1) yb ltac:(lia)).
    destruct (is_leap ya); lia.
  - simpl in Hlt. destruct (Z.eqb_spec ya yb) as [<-|Hne]; [|discriminate].
    simpl in Hlt. destruct (Z.ltb_spec ma mb) as [Hm|Hm].
    + pose proof (days_before_month_mono ya ma da mb Ha ltac:(lia) Hm). lia.
    + simpl in Hlt. destruct (Z.eqb_spec ma mb) as [<-|Hne]; [|discriminate].
      simpl in Hlt. apply Z.ltb_lt in Hlt. lia.
Qed.

Lemma days_between_pos_ltb (a b : date) :
  valid a = true -> valid b = true -> days_between a b > 0 -> date_ltb b a = true.
Proof.
  intros Ha Hb H. unfold days_between in H.
  destruct (date_ltb b a) eqn:E; [reflexivity|].
  destruct (date_ltb a b) eqn:E'.
  - pose proof (toordinal_mono a b Ha Hb E'). lia.
  - rewrite (date_ltb_total a b E' E) in H. lia.
Qed.

(** ** C2: the walk counts the first run of consecutive days *)

(** C2. If the most recent of the sorted distinct completion dates is today
    or yesterday, calculate_streak returns 1 plus the length k of the run of
    one-day steps along those dates starting at that date: every step before
    k is exactly one day, and the step at k, if there is one, is not. The walk
    does not resume after the first gap. So a task completed today and one
    completed three days earlier give a streak of 1. *)
Theorem streak_first_run :
  (forall (today : date) (df : list Task) (d0 : date) (rest : list date),
     sorted_dates df = d0 :: rest ->
     0 <= days_between today d0 <= 1 ->
     exists k, calculate_streak today df = 1 + Z.of_nat k /\
       (k <= List.length rest)%nat /\
       (forall i, (i < k)%nat -> step_gap (d0 :: rest) i = Some 1) /\
       ((k < List.length rest)%nat -> step_gap (d0 :: rest) k <> Some 1)) /\
  (forall (today d : date) (t1 t2 : Task),
     valid today = true -> valid d = true -> days_between today d = 3 ->
     Status t1 = true -> Status t2 = true -> Date t1 = today -> Date t2 = d ->
     calculate_streak today [t1; t2] = 1).
Proof.
  split.
  - intros today df d0 rest Hs Hd. rewrite calculate_streak_eq, Hs.
    destruct (Z.gtb_spec (days_between today d0) 1); [lia|].
    exact (streak_walk_run rest d0 1).
  - intros today d t1 t2 Hv Hvd H3 S1 S2 D1 D2.
    pose proof (days_between_pos_ltb today d Hv Hvd ltac:(lia)) as Hlt.
    assert (date_eqb d today = false) as Hne.
    { destruct (date_eqb d today) eqn:E; [|reflexivity].
      apply date_eqb_eq in E. rewrite E in H3. unfold days_between in H3. lia. }
    rewrite calculate_streak_eq. unfold sorted_dates.
    cbn [filter]. rewrite S1, S2. cbn [map]. rewrite D1, D2.
    unfold unique. cbn [unique_from existsb]. rewrite Hne.
    cbn [unique_from existsb orb sort_desc fold_right insert_desc]. rewrite Hlt.
    assert (days_between today today = 0) as H0 by (unfold days_between; lia).
    rewrite H0. cbn [Z.gtb Z.compare streak_walk]. rewrite H3. reflexivity.
Qed.

Lemma streak_first_run_witness :
  sorted_dates [task_on (d2024 3 1) true; task_on (d2024 2 29) true;
                task_on (d2024 2 26) true] = [d2024 3 1; d2024 2 29; d2024 2 26] /\
  calculate_streak (d2024 3 1) [task_on (d2024 3 1) true; task_on (d2024 2 27) true] = 1 /\
  exists k, calculate_streak (d2024 3 1)
              [task_on (d2024 3 1) true; task_on (d2024 2 29) true;
               task_on (d2024 2 26) true] = 1 + Z.of_nat k.
Proof.
  split; [reflexivity|]. split.
  - apply (proj2 streak_first_run (d2024 3 1) (d2024 2 27)); reflexivity.
  - destruct (proj1 streak_first_run (d2024 3 1)
                [task_on (d2024 3 1) true; task_on (d2024 2 29) true;
                 task_on (d2024 2 26) true]
                (d2024 3 1) [d2024 2 29; d2024 2 26] eq_refl) as [k [Hk _]].
    + vm_compute. split; discriminate.
    + exists k. exact Hk.
Defined.

(** ** C6: when the streak is zero *)

(** C6. calculate_streak returns 0 exactly when no task is completed (in
    particular for the empty task set) or the most recent completion date is
    more than one day before today. A most recent date of today or yesterday
    gives at least 1. A single completed task dated today or yesterday gives
    1, and completed tasks all two or more days old give 0. *)
Theorem streak_zero_cases :
  forall (today : date) (df : list Task),
  (calculate_streak today df = 0 <->
     most_recent_completion df = None \/
     exists m, most_recent_completion df = Some m /\ days_between today m > 1) /\
  (forall m, most_recent_completion df = Some m ->
     0 <= days_between today m <= 1 -> calculate_streak today df >= 1) /\
  (forall t, filter Status df = [t] ->
     0 <= days_between today (Date t) <= 1 -> calculate_streak today df = 1) /\
  (Forall (fun t => days_between today (Date t) >= 2) (filter Status df) ->
     calculate_streak today df = 0) /\
  calculate_streak today [] = 0.
Proof.
  intros today df. repeat split.
  - intros H0. destruct (most_recent_completion df) as [m|] eqn:Hm; [|left; reflexivity].
    right. exists m. split; [reflexivity|].
    destruct (Z.gtb_spec (days_between today m) 1) as [G|G]; [lia|].
    pose proof (proj2 (streak_anchor today df m Hm) G). lia.
  - intros [H|[m [Hm G]]].
    + apply streak_no_completion; exact H.
    + apply (proj1 (streak_anchor today df m Hm)); exact G.
  - intros m Hm Hd. apply (proj2 (streak_anchor today df m Hm)). lia.
  - intros t Ht Hd. rewrite calculate_streak_eq. unfold sorted_dates. rewrite Ht.
    cbn [map unique unique_from existsb sort_desc fold_right insert_desc].
    destruct (Z.gtb_spec (days_between today (Date t)) 1); [lia|]. reflexivity.
  - intros Hall. destruct (most_recent_completion df) as [m|] eqn:Hm.
    + apply (proj1 (streak_anchor today df m Hm)).
      unfold most_recent_completion in Hm. apply latest_max in Hm as [Hin _].
      apply in_map_iff in Hin as [t [<- Ht]].
      rewrite Forall_forall in Hall. specialize (Hall t Ht). lia.
    + apply streak_no_completion; exact Hm.
Qed.

Lemma streak_zero_cases_witness :
  calculate_streak (d2024 3 1) [task_on (d2024 2 28) true; task_on (d2024 3 1) false] = 0 /\
  calculate_streak (d2024 3 1) [task_on (d2024 2 29) true; task_on (d2024 3 1) false] = 1.
Proof.
  split.
  - apply (proj2 (proj1 (streak_zero_cases (d2024 3 1) _))).
    right. exists (d2024 2 28). split; reflexivity.
  - apply (proj1 (proj2 (proj2 (streak_zero_cases (d2024 3 1)
             [task_on (d2024 2 29) true; task_on (d2024 3 1) false]))) (task_on (d2024 2 29) true));
      [reflexivity|vm_compute; split; discriminate].
Defined.

(** ** C9: a completion dated in the future keeps the streak alive *)

(** C9. If the most recent completion date is after today, the anchor check
    does not fire and calculate_streak returns at least 1, although no
    completion falls on today or yesterday. *)
Theorem streak_future_date_alive (today : date) (df : list Task) (m : date) :
  most_recent_completion df = Some m -> days_between today m < 0 ->
  calculate_streak today df >= 1.
Proof.
  intros Hm Hneg. apply (proj2 (streak_anchor today df m Hm)). lia.
Qed.

Lemma streak_future_date_alive_witness :
  calculate_streak (d2024 3 1) [task_on (d2024 3 10) true] >= 1.
Proof.
  apply (streak_future_date_alive (d2024 3 1) _ (d2024 3 10)); reflexivity.
Defined.

(** ** calculate_stats: int64 arithmetic within range *)

Lemma in_int64_iff (z : Z) : in_int64 z = true <-> - two63 <= z < two63.
Proof.
  unfold in_int64. rewrite andb_true_iff, Z.leb_le, Z.ltb_lt. tauto.
Qed.

Lemma wrap64_id (z : Z) : in_int64 z = true -> wrap64 z = z.
Proof.
  rewrite in_int64_iff. unfold wrap64. intros H.
  rewrite Z.mod_small; unfold two63 in *; lia.
Qed.

Lemma int_arith_np_py (f : Z -> Z -> Z) (x y : Z) :
  in_int64 y = true -> in_int64 (f x y) = true ->
  int_arith f (NpInt64 x) (PInt y) = Ok (NpInt64 (f x y)).
Proof.
  intros Hy Hf. unfold int_arith. simpl. rewrite Hy. simpl. rewrite wrap64_id; auto.
Qed.






Lemma count_completed_nonneg (df : list Task) : 0 <= count_completed df.
Proof. unfold count_completed. lia. Qed.


(** ** C1: xp, level and progress *)




(** ** C8: level is at least 1 *)




(** ** deal_damage *)

Lemma dict_lookup_set_other (k k' : string) (v : pyval) (kv : list (string * pyval)) :
  k <> k' -> dict_lookup k (dict_set k' v kv) = dict_lookup k kv.
Proof.
  intros Hne. induction kv as [|[k0 v0] t IH]; simpl.
  - destruct (String.eqb_spec k k'); congruence.
  - destruct (String.eqb_spec k' k0) as [E|E]; simpl.
    + subst k0. destruct (String.eqb_spec k k'); congruence.
    + rewrite IH. reflexivity.
Qed.

Lemma dict_lookup_set_same (k : string) (v : pyval) (kv : list (string * pyval)) :
  dict_lookup k (dict_set k v kv) = Some v.
Proof.
  induction kv as [|[k0 v0] t IH]; simpl.
  - rewrite String.eqb_refl. reflexivity.
  - destruct (String.eqb_spec k k0) as [E|E]; simpl.
    + subst k0. rewrite String.eqb_refl. reflexivity.
    + destruct (String.eqb_spec k k0); [contradiction|exact IH].
Qed.

(** Both operands Python ints, or all values within int64: the result
    carries the exact integer. *)
Lemma int_arith_value (f : Z -> Z -> Z) (a b : pyval) (na nb : bool) (x y : Z) :
  num_view a = Some (na, x) -> num_view b = Some (nb, y) ->
  (na = false /\ nb = false) \/
  (in_int64 x && in_int64 y && in_int64 (f x y) = true) ->
  exists v, int_arith f a b = Ok v /\ num_view v = Some (na || nb, f x y).
Proof.
  intros Ha Hb H. unfold int_arith. rewrite Ha, Hb.
  destruct H as [[-> ->]|H].
  - eexists. split; reflexivity.
  - apply andb_true_iff in H as [H Hf]. apply andb_true_iff in H as [Hx Hy].
    destruct na, nb; simpl; rewrite ?Hx, ?Hy; simpl;
      eexists; (split; [reflexivity|]); simpl; rewrite ?wrap64_id by exact Hf;
      reflexivity.
Qed.

(** ** C3: damage and CurrentHP *)

(** C3 (amended): deal_damage returns damage = hitCount * 10 and stores
    CurrentHP - damage, unclamped, when hitCount and CurrentHP are Python
    ints, or when hitCount, CurrentHP, the damage and the new CurrentHP all
    lie within int64 (a numpy int64 hitCount, as main passes it); the
    CurrentHP 100, hitCount 2 case gives damage 20 and CurrentHP 80. *)
Theorem deal_damage_values (kv : list (string * pyval)) (hit cur : pyval)
    (nh nc : bool) (k h : Z) :
  num_view hit = Some (nh, k) ->
  dict_lookup "CurrentHP" kv = Some cur ->
  num_view cur = Some (nc, h) ->
  (nh = false /\ nc = false) \/
  (in_int64 k && in_int64 h && in_int64 (k * BOSS_DMG_PER_TASK)
     && in_int64 (h - k * BOSS_DMG_PER_TASK) = true) ->
  (exists dmg hp,
    deal_damage (PDict kv) hit = Ok (PDict (dict_set "CurrentHP" hp kv), dmg) /\
    int_value dmg = Some (k * BOSS_DMG_PER_TASK) /\
    int_value hp = Some (h - k * BOSS_DMG_PER_TASK) /\
    dict_lookup "CurrentHP" (dict_set "CurrentHP" hp kv) = Some hp) /\
  deal_damage (PDict [("Name", PStr "Test Boss"); ("MaxHP", PInt 100);
                      ("CurrentHP", PInt 100)]) (PInt 2)
  = Ok (PDict [("Name", PStr "Test Boss"); ("MaxHP", PInt 100);
               ("CurrentHP", PInt 80)], PInt 20).
Proof.
  intros Hk Hcur Hh Hr. split; [|reflexivity].
  destruct (int_arith_value Z.mul hit (PInt BOSS_DMG_PER_TASK) nh false k
              BOSS_DMG_PER_TASK Hk eq_refl) as (dmg & Ed & Vd).
  { destruct Hr as [[-> _]|Hr]; [left; auto|right].
    apply andb_true_iff in Hr as [Hr _]. apply andb_true_iff in Hr as [Hr Hm].
    apply andb_true_iff in Hr as [Hk64 _]. rewrite Hk64, Hm. reflexivity. }
  destruct (int_arith_value Z.sub cur dmg nc (nh || false) h
              (k * BOSS_DMG_PER_TASK) Hh Vd) as (hp & Eh & Vh).
  { destruct Hr as [[-> ->]|Hr]; [left; auto|right].
    apply andb_true_iff in Hr as [Hr Hs]. apply andb_true_iff in Hr as [Hr Hm].
    apply andb_true_iff in Hr as [_ Hh64]. rewrite Hh64, Hm, Hs. reflexivity. }
  exists dmg, hp. split; [|split; [|split]].
  - unfold deal_damage, py_mul, py_sub. rewrite Ed. cbn [rbind].
    unfold getitem. rewrite Hcur. cbn [rbind]. rewrite Eh. reflexivity.
  - unfold int_value. rewrite Vd. reflexivity.
  - unfold int_value. rewrite Vh. reflexivity.
  - apply dict_lookup_set_same.
Qed.

(** C3 witness: the test boss with CurrentHP 100 hit by 2 Python-int tasks. *)
Lemma deal_damage_values_witness :
  num_view (PInt 2) = Some (false, 2) /\
  dict_lookup "CurrentHP" [("Name", PStr "Test Boss"); ("MaxHP", PInt 100);
                           ("CurrentHP", PInt 100)] = Some (PInt 100) /\
  num_view (PInt 100) = Some (false, 100) /\
  ((exists dmg hp,
    deal_damage (PDict [("Name", PStr "Test Boss"); ("MaxHP", PInt 100);
                        ("CurrentHP", PInt 100)]) (PInt 2)
    = Ok (PDict (dict_set "CurrentHP" hp [("Name", PStr "Test Boss"); ("MaxHP", PInt 100);
                                         ("CurrentHP", PInt 100)]), dmg) /\
    int_value dmg = Some (2 * BOSS_DMG_PER_TASK) /\
    int_value hp = Some (100 - 2 * BOSS_DMG_PER_TASK) /\
    dict_lookup "CurrentHP" (dict_set "CurrentHP" hp [("Name", PStr "Test Boss");
                              ("MaxHP", PInt 100); ("CurrentHP", PInt 100)]) = Some hp) /\
  deal_damage (PDict [("Name", PStr "Test Boss"); ("MaxHP", PInt 100);
                      ("CurrentHP", PInt 100)]) (PInt 2)
  = Ok (PDict [("Name", PStr "Test Boss"); ("MaxHP", PInt 100);
               ("CurrentHP", PInt 80)], PInt 20)).
Proof.
  split; [reflexivity|]. split; [reflexivity|]. split; [reflexivity|].
  apply (deal_damage_values _ (PInt 2) (PInt 100) false false 2 100);
    [reflexivity|reflexivity|reflexivity|left; split; reflexivity].
Defined.

(** C3 counterexample: a save file whose boss has CurrentHP 2^63 (a Python
    int, one past int64) loads, and the next run passes the save, the HUD
    and the arena. Ticking the one task makes main call deal_damage with the
    numpy int64 hitCount 1: [2^63 - np.int64(10)] raises OverflowError, so
    deal_damage returns neither a damage nor a boss, and the run ends there
    with the boss untouched. *)
Lemma deal_damage_overflow_from_save :
  main_run (d2024 3 1) (mkInputs (Some save_with_huge_boss) None None false [])
    session_before_load
  = (Ok RunRerun, mkSession [task_on (d2024 3 1) false] (PInt 0) huge_boss) /\
  main_run (d2024 3 1) (mkInputs None None None false [task_on (d2024 3 1) true])
    (mkSession [task_on (d2024 3 1) false] (PInt 0) huge_boss)
  = (Exc OverflowError, mkSession [task_on (d2024 3 1) true] (PInt 0) huge_boss) /\
  status_sum [task_on (d2024 3 1) true] = NpInt64 1 /\
  deal_damage huge_boss (NpInt64 1) = Exc OverflowError.
Proof.
  split; [vm_compute; reflexivity|].
  split; [vm_compute; reflexivity|].
  split; vm_compute; reflexivity.
Qed.

(** ** C10: deal_damage writes only CurrentHP *)

(** C10: whenever deal_damage returns, the returned boss is a dict whose
    every key other than CurrentHP (Name, MaxHP and Image among them)
    holds what it held in the input boss. *)
Theorem deal_damage_frame (boss hit_count boss' damage : pyval) :
  deal_damage boss hit_count = Ok (boss', damage) ->
  exists kv kv', boss = PDict kv /\ boss' = PDict kv' /\
    (forall k, k <> "CurrentHP" -> getitem boss' k = getitem boss k) /\
    getitem boss' "Name" = getitem boss "Name" /\
    getitem boss' "MaxHP" = getitem boss "MaxHP" /\
    getitem boss' "Image" = getitem boss "Image".
Proof.
  unfold deal_damage. intros E.
  destruct (py_mul hit_count (PInt BOSS_DMG_PER_TASK)) as [d|e]; [|discriminate].
  cbn [rbind] in E.
  destruct (getitem boss "CurrentHP") as [c|e]; [|discriminate]. cbn [rbind] in E.
  destruct (py_sub c d) as [hp|e]; [|discriminate]. cbn [rbind] in E.
  destruct boss as [| | | | | | | |kv]; try discriminate.
  injection E as <- <-.
  assert (Hk : forall k, k <> "CurrentHP" ->
            getitem (PDict (dict_set "CurrentHP" hp kv)) k = getitem (PDict kv) k).
  { intros k Hne. unfold getitem. rewrite dict_lookup_set_other by exact Hne.
    reflexivity. }
  exists kv, (dict_set "CurrentHP" hp kv). split; [reflexivity|]. split; [reflexivity|].
  split; [exact Hk|].
  split; [|split]; apply Hk; discriminate.
Qed.

(** C10 witness: the test boss (with an Image) hit by 2 tasks. *)
Lemma deal_damage_frame_witness :
  deal_damage (PDict [("Name", PStr "Test Boss"); ("MaxHP", PInt 100);
                      ("CurrentHP", PInt 100); ("Image", PStr "dragon")]) (PInt 2)
  = Ok (PDict [("Name", PStr "Test Boss"); ("MaxHP", PInt 100);
               ("CurrentHP", PInt 80); ("Image", PStr "dragon")], PInt 20) /\
  exists kv kv',
    PDict [("Name", PStr "Test Boss"); ("MaxHP", PInt 100);
           ("CurrentHP", PInt 100); ("Image", PStr "dragon")] = PDict kv /\
    PDict [("Name", PStr "Test Boss"); ("MaxHP", PInt 100);
           ("CurrentHP", PInt 80); ("Image", PStr "dragon")] = PDict kv' /\
    (forall k, k <> "CurrentHP" ->
       getitem (PDict [("Name", PStr "Test Boss"); ("MaxHP", PInt 100);
                       ("CurrentHP", PInt 80); ("Image", PStr "dragon")]) k
       = getitem (PDict [("Name", PStr "Test Boss"); ("MaxHP", PInt 100);
                         ("CurrentHP", PInt 100); ("Image", PStr "dragon")]) k) /\
    getitem (PDict [("Name", PStr "Test Boss"); ("MaxHP", PInt 100);
                    ("CurrentHP", PInt 80); ("Image", PStr "dragon")]) "Name"
    = getitem (PDict [("Name", PStr "Test Boss"); ("MaxHP", PInt 100);
                      ("CurrentHP", PInt 100); ("Image", PStr "dragon")]) "Name" /\
    getitem (PDict [("Name", PStr "Test Boss"); ("MaxHP", PInt 100);
                    ("CurrentHP", PInt 80); ("Image", PStr "dragon")]) "MaxHP"
    = getitem (PDict [("Name", PStr "Test Boss"); ("MaxHP", PInt 100);
                      ("CurrentHP", PInt 100); ("Image", PStr "dragon")]) "MaxHP" /\
    getitem (PDict [("Name", PStr "Test Boss"); ("MaxHP", PInt 100);
                    ("CurrentHP", PInt 80); ("Image", PStr "dragon")]) "Image"
    = getitem (PDict [("Name", PStr "Test Boss"); ("MaxHP", PInt 100);
                      ("CurrentHP", PInt 100); ("Image", PStr "dragon")]) "Image".
Proof.
  split; [reflexivity|].
  apply (deal_damage_frame _ (PInt 2) _ (PInt 20)). reflexivity.
Defined.

(** ** render_boss_arena *)

(** [st.progress(max(0, CurrentHP / MaxHP))] does not raise while
    CurrentHP <= MaxHP and MaxHP > 0. *)
Lemma arena_progress_ok (h m : Z) :
  0 < m -> h <= m -> st_progress (py_max0 (FQ (inject_Z h / inject_Z m))) = Ok tt.
Proof.
  intros Hm Hh. unfold py_max0.
  destruct (Qle_bool (inject_Z h / inject_Z m) 0) eqn:E; [reflexivity|].
  assert (Hm' : (0 < inject_Z m)%Q) by (unfold Qlt; simpl; lia).
  assert (H1 : (inject_Z h / inject_Z m <= 1)%Q).
  { apply Qle_shift_div_r; [exact Hm'|]. unfold Qle; simpl. destruct m; lia. }
  assert (H0 : (0 <= inject_Z h / inject_Z m)%Q).
  { apply Qlt_le_weak, Qnot_le_lt. intros C. apply Qle_bool_iff in C. congruence. }
  unfold st_progress. apply Qle_bool_iff in H0, H1. rewrite H0, H1. reflexivity.
Qed.

Lemma py_truediv_by_int (cur : pyval) (nc : bool) (h m : Z) :
  num_view cur = Some (nc, h) -> 0 < m -> (nc = false \/ in_int64 m = true) ->
  py_truediv cur (PInt m) = Ok (FQ (inject_Z h / inject_Z m)).
Proof.
  intros Hc Hm Hr. unfold py_truediv. rewrite Hc. simpl num_view. cbv iota beta.
  destruct (Z.eqb_spec m 0) as [E|E]; [lia|].
  destruct nc; simpl.
  - destruct Hr as [Hr|Hr]; [discriminate|]. rewrite Hr. reflexivity.
  - reflexivity.
Qed.

(** ** C4: defeat detection *)

(** C4: for an active boss dict with Image, Name, an int CurrentHP not above
    its positive int MaxHP, and an int bonusXP, render_boss_arena adds
    exactly 500 to boss_xp and sets active_boss to None when
    CurrentHP <= 0, and leaves the whole session unchanged when
    CurrentHP > 0. *)
Theorem boss_defeat_step (s : session) (kv : list (string * pyval))
    (img name cur : pyval) (nc : bool) (h m x : Z) :
  active_boss s = PDict kv ->
  dict_lookup "Image" kv = Some img ->
  dict_lookup "Name" kv = Some name ->
  dict_lookup "CurrentHP" kv = Some cur -> num_view cur = Some (nc, h) ->
  dict_lookup "MaxHP" kv = Some (PInt m) -> 0 < m -> h <= m ->
  (nc = false \/ in_int64 m = true) ->
  boss_xp s = PInt x ->
  render_boss_arena s =
    if h <=? 0
    then (Ok tt, mkSession (tasks s) (PInt (x + BOSS_BONUS_XP)) PNone)
    else (Ok tt, s).
Proof.
  intros Hb Himg Hname Hcur Hnc Hmax Hm Hhm Hr Hx.
  unfold render_boss_arena, mbind, gets, lift, mret. rewrite Hb.
  destruct kv as [|p kv']; [discriminate Himg|].
  cbn [py_truthy negb]. cbv iota beta.
  unfold getitem. rewrite Himg, Hname, Hcur, Hmax.
  rewrite (py_truediv_by_int cur nc h m Hnc Hm Hr).
  rewrite (arena_progress_ok h m Hm Hhm).
  unfold py_le. rewrite Hnc. simpl num_view. cbv iota beta.
  destruct (h <=? 0); unfold set_boss_xp, set_active_boss; cbv beta iota.
  - rewrite Hx. reflexivity.
  - reflexivity.
Qed.

(** C4 witness: a boss at CurrentHP -5 (15 hit by 2 tasks) with MaxHP 100
    and bonusXP 0 is defeated: bonusXP becomes 500 and the boss is cleared. *)
Lemma boss_defeat_step_witness :
  render_boss_arena
    (mkSession [] (PInt 0)
       (PDict [("Name", PStr "Test Boss"); ("MaxHP", PInt 100);
               ("CurrentHP", PInt (-5)); ("Image", PStr "dragon")]))
  = (Ok tt, mkSession [] (PInt 500) PNone).
Proof.
  apply (boss_defeat_step
    (mkSession [] (PInt 0)
       (PDict [("Name", PStr "Test Boss"); ("MaxHP", PInt 100);
               ("CurrentHP", PInt (-5)); ("Image", PStr "dragon")]))
    [("Name", PStr "Test Boss"); ("MaxHP", PInt 100);
     ("CurrentHP", PInt (-5)); ("Image", PStr "dragon")]
    (PStr "dragon") (PStr "Test Boss") (PInt (-5)) false (-5) 100 0);
    first [reflexivity | lia | left; reflexivity].
Defined.

(** ** C5: a failed load after the bonus and boss are written *)

(** C5: loading a save file with an unparseable Date reports the failure
    (the ValueError of [date.fromisoformat]) but has already replaced the
    bonus and the active boss by the file's: the prior bonusXP 500 becomes 0
    and the prior boss is gone; only the task list is kept. *)
Theorem load_data_bad_date_overwrites :
  load_data_py save_with_bad_date session_before_load
  = (Ok (Corrupt ValueError),
     mkSession (tasks session_before_load) (PInt 0) PNone) /\
  mkSession (tasks session_before_load) (PInt 0) PNone <> session_before_load.
Proof.
  split.
  - vm_compute. reflexivity.
  - discriminate.
Qed.

(** ** C7: export after a boss hit *)

(** Export then load, in a fresh session, reproduces a state holding only
    Python values. *)
Example export_load_roundtrip_plain :
  match export_data session_before_edit with
  | Ok j => load_data_py j (mkSession [] (PInt 0) PNone)
            = (Ok Loaded, session_before_edit)
  | Exc _ => False
  end.
Proof. vm_compute. reflexivity. Qed.

(** C7: ticking the task in the editor deals damage with the numpy int64
    difference of the two Status sums, so CurrentHP becomes numpy.int64(90);
    export_data then raises TypeError (DateEncoder does not serialize
    numpy.int64), and the state cannot be saved and loaded back at all. *)
Theorem export_after_boss_hit_fails :
  apply_task_edit [task_on (d2024 3 1) true] session_before_edit
  = (Ok tt,
     mkSession [task_on (d2024 3 1) true] (PInt 0)
       (PDict [("Name", PStr "Entropy Dragon"); ("MaxHP", PInt 100);
               ("CurrentHP", NpInt64 90); ("Image", PStr "dragon")])) /\
  export_data (snd (apply_task_edit [task_on (d2024 3 1) true] session_before_edit))
  = Exc TypeError.
Proof.
  split; vm_compute; reflexivity.
Qed.

(** * Further properties of the code *)

(** ** isoformat and fromisoformat *)

Lemma list_ascii_app (a b : string) :
  list_ascii_of_string (a ++ b) = (list_ascii_of_string a ++ list_ascii_of_string b)%list.
Proof. induction a as [|c a IH]; simpl; [reflexivity|]. rewrite IH. reflexivity. Qed.

Lemma digits_value_app (acc : Z) (l1 l2 : list ascii) :
  digits_value acc (l1 ++ l2)%list =
  match digits_value acc l1 with Some v => digits_value v l2 | None => None end.
Proof.
  revert acc. induction l1 as [|c l1 IH]; intros acc; [reflexivity|].
  cbn [app digits_value]. destruct (digit_value c); [apply IH|reflexivity].
Qed.

Lemma digit_value_of (r : Z) :
  0 <= r < 10 -> digit_value (ascii_of_nat (48 + Z.to_nat r)) = Some r.
Proof.
  intros Hr. unfold digit_value. rewrite Ascii.nat_ascii_embedding by lia.
  destruct ((48 <=? 48 + Z.to_nat r)%nat && (48 + Z.to_nat r <=? 57)%nat) eqn:E.
  - f_equal. lia.
  - apply andb_false_iff in E as [E|E]; apply Nat.leb_gt in E; lia.
Qed.

(** [%0wd] writes exactly [w] digits that read back as [n]. *)
Lemma pad_dec_digits (w : nat) : forall (n acc : Z),
  0 <= n < 10 ^ Z.of_nat w ->
  List.length (list_ascii_of_string (pad_dec w n)) = w /\
  digits_value acc (list_ascii_of_string (pad_dec w n)) = Some (acc * 10 ^ Z.of_nat w + n).
Proof.
  induction w as [|w IH]; intros n acc Hn.
  - simpl in *. split; [reflexivity|]. f_equal. lia.
  - rewrite Nat2Z.inj_succ, Z.pow_succ_r in * by lia.
    cbn [pad_dec]. rewrite list_ascii_app.
    assert (Hq : 0 <= n / 10 < 10 ^ Z.of_nat w).
    { split; [apply Z.div_pos; lia|]. apply Z.div_lt_upper_bound; lia. }
    destruct (IH (n / 10) acc Hq) as [L D]. split.
    + rewrite length_app, L. simpl. lia.
    + rewrite digits_value_app, D. cbn [list_ascii_of_string digits_value].
      rewrite digit_value_of by (apply Z.mod_pos_bound; lia).
      f_equal. pose proof (Z.div_mod n 10 ltac:(lia)). nia.
Qed.

Lemma is_char_refl (c : ascii) : is_char c c = true.
Proof. apply Ascii.eqb_refl. Qed.

Lemma days_in_month_le31 (y m : Z) : 1 <= m <= 12 -> days_in_month y m <= 31.
Proof.
  intros Hm. month_tables y.
  destruct (month_cases m Hm) as [->|[->|[->|[->|[->|[->|[->|[->|[->|[->|[->| ->]]]]]]]]]]];
    lia.
Qed.

Ltac split_len l n :=
  let rec go l n :=
    lazymatch n with
    | O => destruct l; [|discriminate]
    | S ?n' => let c := fresh "c" in let l' := fresh "l" in
               destruct l as [|c l']; [discriminate|]; go l' n'
    end in go l n.

Lemma digits_value_head (acc : Z) (c : ascii) (t : list ascii) (v : Z) :
  digits_value acc (c :: t) = Some v -> exists x, digit_value c = Some x.
Proof.
  cbn [digits_value]. destruct (digit_value c) as [x|]; [eauto|discriminate].
Qed.

Lemma pad_dec_chars (w : nat) (n : Z) :
  0 <= n < 10 ^ Z.of_nat w ->
  exists cs, list_ascii_of_string (pad_dec w n) = cs /\ List.length cs = w /\
    digits_value 0 cs = Some n.
Proof.
  intros Hn. destruct (pad_dec_digits w n 0 Hn) as [L D].
  eexists. split; [reflexivity|]. split; [exact L|]. rewrite D; reflexivity.
Qed.

(** DateEncoder writes a date as [date.isoformat()]; [date.fromisoformat],
    as load_data applies it, reads back the same date, for every date the
    [date] constructor accepts. *)
Theorem date_isoformat_roundtrip (d : date) :
  valid d = true -> py_date_fromisoformat (date_isoformat d) = Ok d.
Proof.
  destruct d as [y m dd]. unfold valid. cbn [year month day]. intros H.
  assert (Hv := H). unfold valid_date in Hv. bool_facts.
  pose proof (days_in_month_le31 y m ltac:(lia)).
  destruct (pad_dec_chars 4 y ltac:(simpl; lia)) as (cy & Ey & Ly & Dy).
  destruct (pad_dec_chars 2 m ltac:(simpl; lia)) as (cm & Em & Lm & Dm).
  destruct (pad_dec_chars 2 dd ltac:(simpl; lia)) as (cd & Ed & Ld & Dd).
  unfold py_date_fromisoformat, date_isoformat. cbn [year month day].
  rewrite !list_ascii_app, Ey, Em, Ed.
  split_len cy 4%nat. split_len cm 2%nat. split_len cd 2%nat.
  cbn [list_ascii_of_string app]. cbv beta iota. rewrite Dy. cbv beta iota.
  rewrite is_char_refl. cbn [andb]. rewrite Dm, Dd. rewrite H. reflexivity.
Qed.

(** DateEncoder writes a time as [time.isoformat()] (HH:MM:SS, plus
    .ffffff when the microseconds are not 0); [time.fromisoformat], as
    load_data applies it, reads back the same time, for every time the
    [time] constructor accepts. *)
Theorem time_isoformat_roundtrip (t : time) :
  valid_clock t = true -> py_time_fromisoformat (time_isoformat t) = Ok t.
Proof.
  destruct t as [h mi s us]. unfold valid_clock. cbn [hour minute second microsecond].
  intros H. assert (Hv := H). unfold valid_time in Hv. bool_facts.
  destruct (pad_dec_chars 2 h ltac:(simpl; lia)) as (ch & Eh & Lh & Dh).
  destruct (pad_dec_chars 2 mi ltac:(simpl; lia)) as (cm & Em & Lm & Dm).
  destruct (pad_dec_chars 2 s ltac:(simpl; lia)) as (cs & Es & Ls & Ds).
  destruct (pad_dec_chars 6 us ltac:(simpl; lia)) as (cu & Eu & Lu & Du).
  unfold py_time_fromisoformat, time_isoformat. cbn [hour minute second microsecond].
  rewrite !list_ascii_app, Eh, Em, Es.
  split_len ch 2%nat. split_len cm 2%nat. split_len cs 2%nat.
  destruct (digits_value_head _ _ _ _ Dh) as [x0 Ex0].
  destruct (Z.eqb_spec us 0) as [E0|E0].
  - subst us. cbn [list_ascii_of_string app]. cbv beta iota.
    rewrite Ex0. cbn [negb andb]. rewrite is_char_refl. cbn [andb]. rewrite Dh, Dm, Ds.
    unfold mk_time. rewrite H. reflexivity.
  - rewrite list_ascii_app, Eu. split_len cu 6%nat.
    cbn [list_ascii_of_string app]. cbv beta iota.
    rewrite Ex0. cbn [negb andb]. rewrite is_char_refl. cbn [andb]. rewrite Dh, Dm, Ds.
    cbv beta iota. rewrite is_char_refl. rewrite Du.
    unfold mk_time. rewrite H. reflexivity.
Qed.

(** ** The save format: export_data, then load_data *)

Lemma to_json_plain : forall v, plain v = true ->
  exists j, to_json v = Ok j /\ from_json j = v.
Proof.
  fix IH 1. intros v Hp.
  destruct v as [| b | z | z | str | d | t | l | kv]; try discriminate;
    try (eexists; split; reflexivity).
  - cbn [plain] in Hp.
    assert (Hl : exists ys,
      (fix go (l : list pyval) : result (list json) :=
         match l with
         | [] => Ok []
         | x :: t => y <- to_json x ;; ys <- go t ;; Ok (y :: ys)
         end) l = Ok ys /\ map from_json ys = l).
    { revert l Hp. fix IHl 1. intros [|x t] Hp.
      - exists []. split; reflexivity.
      - apply andb_prop in Hp as [Hx Ht].
        destruct (IH x Hx) as (j & Ej & Fj). destruct (IHl t Ht) as (ys & Eys & Mys).
        exists (j :: ys). cbn [rbind]. rewrite Ej. cbn [rbind]. rewrite Eys.
        split; [reflexivity|]. simpl. rewrite Fj, Mys. reflexivity. }
    destruct Hl as (ys & Eys & Mys). exists (JArr ys). cbn [to_json].
    rewrite Eys. split; [reflexivity|]. simpl. rewrite Mys. reflexivity.
  - cbn [plain] in Hp.
    assert (Hkv : exists ys,
      (fix go (kv : list (string * pyval)) : result (list (string * json)) :=
         match kv with
         | [] => Ok []
         | (k, x) :: t => y <- to_json x ;; ys <- go t ;; Ok ((k, y) :: ys)
         end) kv = Ok ys /\ map (fun '(k, x) => (k, from_json x)) ys = kv).
    { revert kv Hp. fix IHl 1. intros [|[k x] t] Hp.
      - exists []. split; reflexivity.
      - apply andb_prop in Hp as [Hx Ht].
        destruct (IH x Hx) as (j & Ej & Fj). destruct (IHl t Ht) as (ys & Eys & Mys).
        exists ((k, j) :: ys). cbn [rbind]. rewrite Ej. cbn [rbind]. rewrite Eys.
        split; [reflexivity|]. simpl. rewrite Fj, Mys. reflexivity. }
    destruct Hkv as (ys & Eys & Mys). exists (JObj ys). cbn [to_json].
    rewrite Eys. split; [reflexivity|]. simpl. rewrite Mys. reflexivity.
Qed.

Lemma tasks_to_json (ts : list Task) :
  (fix go (l : list pyval) : result (list json) :=
     match l with
     | [] => Ok []
     | x :: t => y <- to_json x ;; ys <- go t ;; Ok (y :: ys)
     end) (map task_record ts) = Ok (map task_json ts).
Proof.
  induction ts as [|t ts IH]; [reflexivity|].
  cbn [map]. cbn [rbind to_json task_record]. rewrite IH. reflexivity.
Qed.

Lemma all_objects_tasks (ts : list Task) :
  all_objects (map task_json ts) = Some (map task_row ts).
Proof.
  induction ts as [|t ts IH]; [reflexivity|].
  cbn [map all_objects task_json]. rewrite IH. reflexivity.
Qed.

Lemma add_keys_task_row (t : Task) :
  add_keys [] (task_row t) = TASK_COLUMNS /\
  add_keys TASK_COLUMNS (task_row t) = TASK_COLUMNS.
Proof. split; reflexivity. Qed.

Lemma fold_add_keys_tasks (ts : list Task) :
  fold_left add_keys (map task_row ts) TASK_COLUMNS = TASK_COLUMNS.
Proof.
  induction ts as [|t ts IH]; [reflexivity|].
  cbn [map fold_left]. rewrite (proj2 (add_keys_task_row t)). exact IH.
Qed.

Lemma py_DataFrame_tasks (t : Task) (ts : list Task) :
  py_DataFrame (JArr (map task_json (t :: ts)))
  = Ok (mkFrame TASK_COLUMNS (map task_row (t :: ts))).
Proof.
  unfold py_DataFrame. rewrite all_objects_tasks. cbn [map fold_left].
  rewrite (proj1 (add_keys_task_row t)), fold_add_keys_tasks. reflexivity.
Qed.

Lemma rmap_parse_dates (ts : list Task) :
  forallb valid_task ts = true ->
  rmap (fun r => parse_date_cell py_date_fromisoformat (dict_lookup "Date" r))
    (map task_row ts) = Ok (map Date ts).
Proof.
  induction ts as [|t ts IH]; intros H; [reflexivity|].
  cbn [forallb] in H. apply andb_prop in H as [Ht H]. unfold valid_task in Ht. bool_facts.
  cbn [map rmap]. rewrite IH by exact H.
  unfold parse_date_cell. cbn [task_row dict_lookup String.eqb Ascii.eqb Bool.eqb andb].
  rewrite date_isoformat_roundtrip by assumption. reflexivity.
Qed.

Lemma rmap_parse_starts (ts : list Task) :
  forallb valid_task ts = true ->
  rmap (fun r => parse_time_cell py_time_fromisoformat (dict_lookup "Start" r))
    (map task_row ts) = Ok (map Start ts).
Proof.
  induction ts as [|t ts IH]; intros H; [reflexivity|].
  cbn [forallb] in H. apply andb_prop in H as [Ht H]. unfold valid_task in Ht. bool_facts.
  cbn [map rmap]. rewrite IH by exact H.
  unfold parse_time_cell. cbn [task_row dict_lookup String.eqb Ascii.eqb Bool.eqb andb].
  rewrite time_isoformat_roundtrip by assumption. reflexivity.
Qed.

Lemma rmap_parse_ends (ts : list Task) :
  forallb valid_task ts = true ->
  rmap (fun r => parse_time_cell py_time_fromisoformat (dict_lookup "End" r))
    (map task_row ts) = Ok (map End ts).
Proof.
  induction ts as [|t ts IH]; intros H; [reflexivity|].
  cbn [forallb] in H. apply andb_prop in H as [Ht H]. unfold valid_task in Ht. bool_facts.
  cbn [map rmap]. rewrite IH by exact H.
  unfold parse_time_cell. cbn [task_row dict_lookup String.eqb Ascii.eqb Bool.eqb andb].
  rewrite time_isoformat_roundtrip by assumption. reflexivity.
Qed.

Lemma tasks_of_task_rows (ts : list Task) :
  tasks_of_rows (map task_row ts) (map Date ts) (map Start ts) (map End ts) = Ok ts.
Proof.
  induction ts as [|[ti de da st en sa co] ts IH]; [reflexivity|].
  cbn [map tasks_of_rows]. rewrite IH. reflexivity.
Qed.

Lemma build_frame_tasks (t : Task) (ts : list Task) :
  forallb valid_task (t :: ts) = true ->
  build_frame py_date_fromisoformat py_time_fromisoformat (JArr (map task_json (t :: ts)))
  = Ok (t :: ts).
Proof.
  intros H. unfold build_frame. rewrite py_DataFrame_tasks. cbn [rbind].
  unfold apply_column. cbn [columns rows TASK_COLUMNS existsb String.eqb Ascii.eqb Bool.eqb andb orb].
  rewrite rmap_parse_dates, rmap_parse_starts, rmap_parse_ends by exact H.
  cbn [rbind]. rewrite tasks_of_task_rows. reflexivity.
Qed.

(** export_data, then load_data: for a session whose tasks carry valid
    dates and times and whose bonus and boss hold only None, bools, ints,
    strings, lists and dicts, export_data succeeds and load_data, run on
    any session, reports success and restores exactly that session. *)
Theorem export_load_roundtrip (s s0 : session) :
  forallb valid_task (tasks s) = true ->
  plain (boss_xp s) = true -> plain (active_boss s) = true ->
  exists j, export_data s = Ok j /\ load_data_py j s0 = (Ok Loaded, s).
Proof.
  destruct s as [ts bx ab]. cbn [tasks boss_xp active_boss]. intros Ht Hb Ha.
  destruct (to_json_plain bx Hb) as (jb & Eb & Fb).
  destruct (to_json_plain ab Ha) as (ja & Ea & Fa).
  exists (JObj [("tasks", JArr (map task_json ts)); ("boss_xp", jb); ("active_boss", ja)]).
  split.
  - unfold export_data. cbn [tasks boss_xp active_boss to_json rbind].
    rewrite tasks_to_json. cbn [rbind]. rewrite Eb. cbn [rbind]. rewrite Ea. reflexivity.
  - unfold load_data_py, load_data, try_except, mbind, lift, mret, set_boss_xp,
      set_active_boss, set_tasks.
    cbn [json_get dict_lookup String.eqb Ascii.eqb Bool.eqb andb tasks boss_xp active_boss].
    rewrite Fb, Fa.
    destruct ts as [|t ts'].
    + reflexivity.
    + cbn [map json_truthy from_json py_truthy negb].
      pose proof (build_frame_tasks t ts' Ht) as Hf. cbn [map] in Hf.
      rewrite Hf. reflexivity.
Qed.

(** [json.dumps] with DateEncoder fails on a value exactly when a numpy
    int64 sits in it, and then with TypeError. *)
Lemma to_json_cases : forall v,
  (has_np v = false /\ exists j, to_json v = Ok j) \/
  (has_np v = true /\ to_json v = Exc TypeError).
Proof.
  fix IH 1. intros v.
  destruct v as [| b | z | z | str | d | t | l | kv];
    try (left; split; [reflexivity|eexists; reflexivity]);
    try (right; split; reflexivity).
  - assert (Hl :
      ((fix go (l : list pyval) : bool :=
          match l with [] => false | x :: t => has_np x || go t end) l = false /\
       exists ys,
       (fix go (l : list pyval) : result (list json) :=
          match l with
          | [] => Ok []
          | x :: t => y <- to_json x ;; ys <- go t ;; Ok (y :: ys)
          end) l = Ok ys) \/
      ((fix go (l : list pyval) : bool :=
          match l with [] => false | x :: t => has_np x || go t end) l = true /\
       (fix go (l : list pyval) : result (list json) :=
          match l with
          | [] => Ok []
          | x :: t => y <- to_json x ;; ys <- go t ;; Ok (y :: ys)
          end) l = Exc TypeError)).
    { revert l. fix IHl 1. intros [|x t].
      - left. split; [reflexivity|]. eexists; reflexivity.
      - destruct (IH x) as [(Hx & j & Ej)|(Hx & Ej)].
        + destruct (IHl t) as [(Ht & ys & Eys)|(Ht & Eys)].
          * left. cbn [orb]. rewrite Hx, Ht. split; [reflexivity|].
            exists (j :: ys). cbn [rbind]. rewrite Ej. cbn [rbind]. rewrite Eys. reflexivity.
          * right. rewrite Hx, Ht. split; [reflexivity|].
            cbn [rbind]. rewrite Ej. cbn [rbind]. rewrite Eys. reflexivity.
        + right. rewrite Hx. split; [reflexivity|]. cbn [rbind]. rewrite Ej. reflexivity. }
    destruct Hl as [(H & ys & E)|(H & E)].
    + left. cbn [has_np to_json]. rewrite H, E. split; [reflexivity|]. eexists; reflexivity.
    + right. cbn [has_np to_json]. rewrite H, E. split; reflexivity.
  - assert (Hkv :
      ((fix go (kv : list (string * pyval)) : bool :=
          match kv with [] => false | (_, x) :: t => has_np x || go t end) kv = false /\
       exists ys,
       (fix go (kv : list (string * pyval)) : result (list (string * json)) :=
          match kv with
          | [] => Ok []
          | (k, x) :: t => y <- to_json x ;; ys <- go t ;; Ok ((k, y) :: ys)
          end) kv = Ok ys) \/
      ((fix go (kv : list (string * pyval)) : bool :=
          match kv with [] => false | (_, x) :: t => has_np x || go t end) kv = true /\
       (fix go (kv : list (string * pyval)) : result (list (string * json)) :=
          match kv with
          | [] => Ok []
          | (k, x) :: t => y <- to_json x ;; ys <- go t ;; Ok ((k, y) :: ys)
          end) kv = Exc TypeError)).
    { revert kv. fix IHl 1. intros [|[k x] t].
      - left. split; [reflexivity|]. eexists; reflexivity.
      - destruct (IH x) as [(Hx & j & Ej)|(Hx & Ej)].
        + destruct (IHl t) as [(Ht & ys & Eys)|(Ht & Eys)].
          * left. cbn [orb]. rewrite Hx, Ht. split; [reflexivity|].
            exists ((k, j) :: ys). cbn [rbind]. rewrite Ej. cbn [rbind]. rewrite Eys. reflexivity.
          * right. rewrite Hx, Ht. split; [reflexivity|].
            cbn [rbind]. rewrite Ej. cbn [rbind]. rewrite Eys. reflexivity.
        + right. rewrite Hx. split; [reflexivity|]. cbn [rbind]. rewrite Ej. reflexivity. }
    destruct Hkv as [(H & ys & E)|(H & E)].
    + left. cbn [has_np to_json]. rewrite H, E. split; [reflexivity|]. eexists; reflexivity.
    + right. cbn [has_np to_json]. rewrite H, E. split; reflexivity.
Qed.

(** export_data fails exactly when the bonus or the active boss holds a
    numpy int64, and then with TypeError; the task list never makes it
    fail. *)
Theorem export_data_fails_iff_numpy (s : session) :
  ((exists j, export_data s = Ok j) <->
   has_np (boss_xp s) = false /\ has_np (active_boss s) = false) /\
  (forall e, export_data s = Exc e -> e = TypeError).
Proof.
  destruct s as [ts bx ab]. unfold export_data.
  cbn [tasks boss_xp active_boss to_json rbind]. rewrite tasks_to_json. cbn [rbind].
  destruct (to_json_cases bx) as [(Hb & jb & Eb)|(Hb & Eb)]; rewrite Eb; cbn [rbind];
  destruct (to_json_cases ab) as [(Ha & ja & Ea)|(Ha & Ea)]; rewrite ?Ea; cbn [rbind];
  rewrite Hb, Ha; (split; [split|]);
  try (intros; eexists; reflexivity);
  try (intros [? E]; discriminate E);
  try (intros [? ?]; discriminate);
  try (intros e E; injection E; auto);
  try (intros e E; discriminate E);
  try (intros; split; reflexivity).
Qed.

(** ** load_data: a document that is not an object *)

(** A save file whose top level is not a JSON object has no [.get]: the
    load is reported as corrupt (AttributeError) before anything is
    written, so the session is unchanged. *)
Theorem load_data_not_object (dp : string -> result date) (tp : string -> result time)
    (j : json) (s : session) :
  (forall kv, j <> JObj kv) ->
  load_data dp tp j s = (Ok (Corrupt AttributeError), s).
Proof.
  intros H. destruct j as [| b | z | str | l | kv]; try reflexivity.
  exfalso. exact (H kv eq_refl).
Qed.

(** ** calculate_streak: what it depends on, and its bound *)

Lemma filter_idem {A} (f : A -> bool) (l : list A) : filter f (filter f l) = filter f l.
Proof.
  induction l as [|x l IH]; [reflexivity|]. simpl.
  destruct (f x) eqn:E; simpl; [rewrite E, IH|rewrite IH]; reflexivity.
Qed.

Lemma length_insert_desc (x : date) (l : list date) :
  List.length (insert_desc x l) = S (List.length l).
Proof.
  induction l as [|y l IH]; [reflexivity|]. simpl.
  destruct (date_ltb y x); simpl; [reflexivity|]. rewrite IH. reflexivity.
Qed.

Lemma length_sort_desc (l : list date) : List.length (sort_desc l) = List.length l.
Proof.
  induction l as [|x l IH]; [reflexivity|]. unfold sort_desc in *. simpl.
  rewrite length_insert_desc, IH. reflexivity.
Qed.

Lemma calculate_streak_filter (today : date) (df : list Task) :
  calculate_streak today df = calculate_streak today (filter Status df).
Proof.
  rewrite !calculate_streak_eq. unfold sorted_dates. rewrite filter_idem. reflexivity.
Qed.

(** Tasks that are not completed never change the streak: it is the same
    as for the completed tasks alone. *)
Theorem streak_ignores_open_tasks (today : date) (df : list Task) :
  calculate_streak today df = calculate_streak today (filter Status df).
Proof. apply calculate_streak_filter. Qed.

(** The streak is never negative and never exceeds the number of distinct
    completion dates. *)
Theorem streak_bounded (today : date) (df : list Task) :
  0 <= calculate_streak today df <=
  Z.of_nat (List.length (unique (map Date (filter Status df)))).
Proof.
  rewrite calculate_streak_eq.
  pose proof (length_sort_desc (unique (map Date (filter Status df)))) as L.
  unfold sorted_dates. destruct (sort_desc _) as [|d0 rest]; [simpl in *; lia|].
  simpl in L. destruct (days_between today d0 >? 1); [lia|].
  destruct (streak_walk_run rest d0 1) as (k & Hk & Hle & _). rewrite Hk. lia.
Qed.

(** ** The New Quest form *)

Lemma filter_Status_add (df : list Task) (title desc color : string) (d : date)
    (t_s t_e : time) :
  filter Status (df ++ [mkTask title desc d t_s t_e false color]) = filter Status df.
Proof. rewrite filter_app. simpl. apply app_nil_r. Qed.

(** Adding a quest appends one open task and touches nothing else; the
    streak stays what it was, and so do xp, level and progress when the
    task list was not empty. *)
Theorem add_quest_keeps_progress (title desc color : string) (d : date)
    (t_s t_e : time) (s : session) :
  tasks s <> [] ->
  add_quest title desc d t_s t_e color s =
    (Ok tt, mkSession (tasks s ++ [mkTask title desc d t_s t_e false color])
                      (boss_xp s) (active_boss s)) /\
  (forall today, calculate_streak today (tasks s ++ [mkTask title desc d t_s t_e false color])
                 = calculate_streak today (tasks s)) /\
  calculate_stats (tasks s ++ [mkTask title desc d t_s t_e false color]) (boss_xp s)
  = calculate_stats (tasks s) (boss_xp s).
Proof.
  intros Hne. split; [reflexivity|]. split.
  - intros today. rewrite (calculate_streak_filter today (tasks s ++ _)).
    rewrite (calculate_streak_filter today (tasks s)). rewrite filter_Status_add. reflexivity.
  - unfold calculate_stats.
    replace (status_sum (tasks s ++ [mkTask title desc d t_s t_e false color]))
      with (status_sum (tasks s))
      by (unfold status_sum, count_completed; rewrite filter_Status_add; reflexivity).
    destruct (tasks s) as [|t df]; [contradiction|]. reflexivity.
Qed.

(** ** deal_damage applied twice *)






(** ** main: the task-edit step *)

Lemma tasks_eqb_count (a b : list Task) :
  tasks_eqb a b = true -> count_completed a = count_completed b.
Proof.
  unfold count_completed. revert b.
  induction a as [|x a IH]; intros [|y b] H; try discriminate; [reflexivity|].
  cbn [tasks_eqb] in H. apply andb_prop in H as [Hxy H].
  unfold task_eqb in Hxy. apply andb_prop in Hxy as [Hxy _].
  apply andb_prop in Hxy as [_ Hs]. apply Bool.eqb_prop in Hs.
  specialize (IH b H). simpl. rewrite Hs.
  destruct (Status y); simpl; lia.
Qed.

Lemma int_arith_any_np (f : Z -> Z -> Z) (a : pyval) (na : bool) (x y : Z) :
  num_view a = Some (na, x) -> in_int64 x = true -> in_int64 (f x y) = true ->
  int_arith f a (NpInt64 y) = Ok (NpInt64 (f x y)).
Proof.
  intros Ha Hx Hf. unfold int_arith. rewrite Ha. simpl.
  destruct na; simpl; rewrite ?Hx; simpl; rewrite wrap64_id by exact Hf; reflexivity.
Qed.

(** An edit that completes [b - a > 0] more tasks, with a boss whose
    CurrentHP is an int, stores CurrentHP - 10 (b - a) as a numpy int64. *)
Lemma apply_task_edit_hit (new_df : list Task) (s : session)
    (kv : list (string * pyval)) (cur : pyval) (nc : bool) (h : Z) :
  active_boss s = PDict kv ->
  dict_lookup "CurrentHP" kv = Some cur -> num_view cur = Some (nc, h) ->
  count_completed (tasks s) < count_completed new_df < two63 ->
  in_int64 h = true ->
  in_int64 ((count_completed new_df - count_completed (tasks s)) * BOSS_DMG_PER_TASK) = true ->
  in_int64 (h - (count_completed new_df - count_completed (tasks s)) * BOSS_DMG_PER_TASK) = true ->
  apply_task_edit new_df s =
    (Ok tt, mkSession new_df (boss_xp s)
              (PDict (dict_set "CurrentHP"
                 (NpInt64 (h - (count_completed new_df - count_completed (tasks s))
                               * BOSS_DMG_PER_TASK)) kv))).
Proof.
  intros Hb Hcur Hnc Hab Hh Hd Hr.
  pose proof (count_completed_nonneg (tasks s)).
  set (a := count_completed (tasks s)) in *. set (b := count_completed new_df) in *.
  assert (Hne : tasks_eqb new_df (tasks s) = false).
  { destruct (tasks_eqb new_df (tasks s)) eqn:E; [|reflexivity].
    apply tasks_eqb_count in E. fold a b in E. lia. }
  unfold apply_task_edit, mbind, gets, lift, mret, set_tasks, set_active_boss.
  cbn [tasks boss_xp active_boss]. rewrite Hne. cbn [negb].
  unfold status_sum. fold a b.
  rewrite (wrap64_id a) by (apply in_int64_iff; unfold two63 in *; lia).
  rewrite (wrap64_id b) by (apply in_int64_iff; unfold two63 in *; lia).
  unfold py_gt. cbn [num_view]. cbv iota beta.
  destruct (Z.gtb_spec b a); [|lia].
  unfold py_sub at 1. unfold int_arith. cbn [num_view orb andb].
  rewrite (wrap64_id (b - a)) by (apply in_int64_iff; unfold two63 in *; lia).
  cbn [tasks boss_xp active_boss]. rewrite Hb.
  destruct kv as [|p kv']; [discriminate Hcur|]. cbn [py_truthy negb].
  unfold deal_damage, py_mul. rewrite int_arith_np_py by (exact Hd || reflexivity).
  cbn [rbind]. unfold getitem. rewrite Hcur. cbn [rbind].
  unfold py_sub. rewrite (int_arith_any_np Z.sub cur nc h _ Hnc Hh Hr).
  reflexivity.
Qed.

(** When an edit raises the number of completed tasks from a to b and a
    boss with an int CurrentHP h is active, the boss's CurrentHP becomes
    h - 10 (b - a), as a numpy int64, while the values stay within int64;
    the new frame replaces the tasks and the bonus is unchanged. *)
Theorem task_edit_damages_boss (new_df : list Task) (s : session)
    (kv : list (string * pyval)) (cur : pyval) (nc : bool) (h : Z) :
  active_boss s = PDict kv ->
  dict_lookup "CurrentHP" kv = Some cur -> num_view cur = Some (nc, h) ->
  count_completed (tasks s) < count_completed new_df < two63 ->
  in_int64 h = true ->
  in_int64 ((count_completed new_df - count_completed (tasks s)) * BOSS_DMG_PER_TASK) = true ->
  in_int64 (h - (count_completed new_df - count_completed (tasks s)) * BOSS_DMG_PER_TASK) = true ->
  apply_task_edit new_df s =
    (Ok tt, mkSession new_df (boss_xp s)
              (PDict (dict_set "CurrentHP"
                 (NpInt64 (h - (count_completed new_df - count_completed (tasks s))
                               * BOSS_DMG_PER_TASK)) kv))).
Proof. exact (apply_task_edit_hit new_df s kv cur nc h). Qed.

(** An edit that does not raise the number of completed tasks never
    touches the bonus or the boss (unticking a task does not heal it); the
    edited frame replaces the tasks unless it equals the old one. *)
Theorem task_edit_without_new_completion (new_df : list Task) (s : session) :
  count_completed new_df <= count_completed (tasks s) ->
  count_completed (tasks s) < two63 ->
  apply_task_edit new_df s =
    (Ok tt, if tasks_eqb new_df (tasks s) then s
            else mkSession new_df (boss_xp s) (active_boss s)).
Proof.
  intros Hle Hlt. pose proof (count_completed_nonneg new_df).
  unfold apply_task_edit, mbind, gets, lift, mret, set_tasks.
  destruct (tasks_eqb new_df (tasks s)); [reflexivity|]. cbn [negb].
  unfold status_sum.
  rewrite (wrap64_id (count_completed (tasks s))) by (apply in_int64_iff; unfold two63 in *; lia).
  rewrite (wrap64_id (count_completed new_df)) by (apply in_int64_iff; unfold two63 in *; lia).
  unfold py_gt. cbn [num_view]. cbv iota beta.
  destruct (Z.gtb_spec (count_completed new_df) (count_completed (tasks s))); [lia|].
  reflexivity.
Qed.

(** ** initialize_session *)

(** initialize_session keeps every key already in the session state,
    fills each missing one with its default ([DEFAULT_TASK], 0, None), so
    that afterwards all three keys are present, and a second call changes
    nothing. *)
Theorem initialize_session_spec (import_day : date) (ss : session_state) :
  st_tasks (initialize_session import_day ss)
    = Some (match st_tasks ss with Some t => t | None => [DEFAULT_TASK import_day] end) /\
  st_boss_xp (initialize_session import_day ss)
    = Some (match st_boss_xp ss with Some v => v | None => PInt 0 end) /\
  st_active_boss (initialize_session import_day ss)
    = Some (match st_active_boss ss with Some v => v | None => PNone end) /\
  (exists s, to_session (initialize_session import_day ss) = Some s) /\
  initialize_session import_day (initialize_session import_day ss)
    = initialize_session import_day ss.
Proof.
  destruct ss as [[t|] [x|] [b|]]; repeat split; eexists; reflexivity.
Qed.

(** A brand-new session (no key set) starts with the default task,
    completed on the day the module was imported: 50 xp, level 1,
    progress 50/500, and a streak of 1 on that day. *)
Theorem fresh_session_stats (import_day : date) :
  to_session (initialize_session import_day (mkState None None None))
    = Some (mkSession [DEFAULT_TASK import_day] (PInt 0) PNone) /\
  calculate_stats [DEFAULT_TASK import_day] (PInt 0)
    = Ok (mkStats (NpInt64 50) (NpInt64 1) (FQ (50 # 500))) /\
  calculate_streak import_day [DEFAULT_TASK import_day] = 1.
Proof.
  split; [reflexivity|]. split; [reflexivity|].
  rewrite calculate_streak_eq.
  change (sorted_dates [DEFAULT_TASK import_day]) with [import_day].
  cbv iota. unfold days_between. rewrite Z.sub_diag. reflexivity.
Qed.

(** ** A summoned boss through the runs of main *)









(** ** Witnesses *)

Lemma date_isoformat_roundtrip_witness :
  valid (d2024 2 29) = true /\
  py_date_fromisoformat (date_isoformat (d2024 2 29)) = Ok (d2024 2 29).
Proof.
  split; [reflexivity|]. apply date_isoformat_roundtrip. reflexivity.
Defined.

Lemma time_isoformat_roundtrip_witness :
  valid_clock (mkTime 9 30 0 250000) = true /\
  py_time_fromisoformat (time_isoformat (mkTime 9 30 0 250000)) = Ok (mkTime 9 30 0 250000).
Proof.
  split; [reflexivity|]. apply time_isoformat_roundtrip. reflexivity.
Defined.

Lemma export_load_roundtrip_witness :
  forallb valid_task (tasks session_before_edit) = true /\
  plain (boss_xp session_before_edit) = true /\
  plain (active_boss session_before_edit) = true /\
  exists j, export_data session_before_edit = Ok j /\
    load_data_py j (mkSession [] (PInt 0) PNone) = (Ok Loaded, session_before_edit).
Proof.
  split; [reflexivity|]. split; [reflexivity|]. split; [reflexivity|].
  apply export_load_roundtrip; reflexivity.
Defined.

Lemma load_data_not_object_witness :
  (forall kv, JArr [] <> JObj kv) /\
  load_data_py (JArr []) session_before_load
  = (Ok (Corrupt AttributeError), session_before_load).
Proof.
  split; [intros kv; discriminate|].
  apply load_data_not_object. intros kv; discriminate.
Defined.

Lemma add_quest_keeps_progress_witness :
  tasks session_before_load <> [] /\
  add_quest "Read" "" (d2024 3 2) nine ten "#3788d8" session_before_load =
    (Ok tt, mkSession (tasks session_before_load ++ [mkTask "Read" "" (d2024 3 2) nine ten false "#3788d8"])
                      (boss_xp session_before_load) (active_boss session_before_load)) /\
  (forall today, calculate_streak today (tasks session_before_load ++ [mkTask "Read" "" (d2024 3 2) nine ten false "#3788d8"])
                 = calculate_streak today (tasks session_before_load)) /\
  calculate_stats (tasks session_before_load ++ [mkTask "Read" "" (d2024 3 2) nine ten false "#3788d8"])
    (boss_xp session_before_load)
  = calculate_stats (tasks session_before_load) (boss_xp session_before_load).
Proof.
  split; [discriminate|]. apply add_quest_keeps_progress. discriminate.
Defined.

Lemma task_edit_damages_boss_witness :
  active_boss session_before_edit =
    PDict [("Name", PStr "Entropy Dragon"); ("MaxHP", PInt 100);
           ("CurrentHP", PInt 100); ("Image", PStr "dragon")] /\
  apply_task_edit [task_on (d2024 3 1) true] session_before_edit =
    (Ok tt, mkSession [task_on (d2024 3 1) true] (boss_xp session_before_edit)
              (PDict (dict_set "CurrentHP"
                 (NpInt64 (100 - (count_completed [task_on (d2024 3 1) true]
                                  - count_completed (tasks session_before_edit))
                                 * BOSS_DMG_PER_TASK))
                 [("Name", PStr "Entropy Dragon"); ("MaxHP", PInt 100);
                  ("CurrentHP", PInt 100); ("Image", PStr "dragon")]))).
Proof.
  split; [reflexivity|].
  apply (task_edit_damages_boss _ _ _ (PInt 100) false 100);
    try reflexivity; vm_compute; try reflexivity; split; reflexivity.
Defined.

Lemma task_edit_without_new_completion_witness :
  count_completed [task_on (d2024 3 1) false]
    <= count_completed (tasks (mkSession [task_on (d2024 3 1) true] (PInt 0) PNone)) /\
  apply_task_edit [task_on (d2024 3 1) false] (mkSession [task_on (d2024 3 1) true] (PInt 0) PNone) =
    (Ok tt, if tasks_eqb [task_on (d2024 3 1) false]
                 (tasks (mkSession [task_on (d2024 3 1) true] (PInt 0) PNone))
            then mkSession [task_on (d2024 3 1) true] (PInt 0) PNone
            else mkSession [task_on (d2024 3 1) false]
                   (boss_xp (mkSession [task_on (d2024 3 1) true] (PInt 0) PNone))
                   (active_boss (mkSession [task_on (d2024 3 1) true] (PInt 0) PNone))).
Proof.
  split; [vm_compute; discriminate|].
  apply task_edit_without_new_completion; vm_compute; [discriminate|reflexivity].
Defined.

